(** * LibraryPage: the catalog state engine of [src/pages/LibraryPage.tsx]

    A shallow embedding of the logic of the [LibraryPage] component: the
    filtered view over the fetched books ([filteredApiBooks]), the filter
    tabs ([handleFilterChange]), the book-details dialog (opening a book,
    the pages-read input) and the save transaction with its three requests
    ([fetchBooks] and the Save button's handler).

    Conventions of the embedding.
    - A JavaScript [number] that the component uses as a counter or an
      identifier is a [Z]; this is exact for integers of magnitude up to
      2^53.  [NaN] only arises from [parseInt] and is the [None] of its
      result.
    - A JavaScript string is a [string]: a sequence of code units below
      256 (the Latin-1 range), on which [toLowerCase] is a map on single
      code units.  Text outside that range is not a [string]; module
      [Utf16] has strings of 16-bit code units, with the lower-casing of
      the Greek letters, where it depends on the place of a letter.
    - React state is the record [State]; a handler reads the values of the
      render it was created in (its closure) and writes through setters.
    - The network and the remote service are the environment: its answer to
      each request is a parameter of the development. *)

From Stdlib Require Import ZArith List String Ascii Bool Lia DecimalString.
From Stdlib Require Import DecimalPos DecimalZ Sorted Permutation OrderedTypeEx.
Import ListNotations.

Open Scope bool_scope.
Open Scope string_scope.
Open Scope Z_scope.

(* ================================================================= *)
(** ** JavaScript strings *)

Module Js.

(** Upper-case letters of the Latin-1 range: A-Z, and the accented capitals
    U+00C0-U+00DE except the multiplication sign U+00D7. *)
Definition isUpper (c : ascii) : bool :=
  let n := N_of_ascii c in
  ((65 <=? n) && (n <=? 90) ||
   (192 <=? n) && (n <=? 222) && negb (n =? 215))%N.

(** [String.prototype.toLowerCase] on one code unit: every upper-case letter
    of the range has its lower-case form 32 positions later.  On a string
    of the Latin-1 range lower-casing works unit by unit; [Utf16.toLowerCase]
    has the same map, and the Greek letters, where it does not. *)
Definition toLowerCaseChar (c : ascii) : ascii :=
  if isUpper c then ascii_of_N (N_of_ascii c + 32) else c.

Fixpoint toLowerCase (s : string) : string :=
  match s with
  | EmptyString => EmptyString
  | String c s' => String (toLowerCaseChar c) (toLowerCase s')
  end.

(** [s.startsWith(q)]. *)
Fixpoint startsWith (s q : string) {struct q} : bool :=
  match q, s with
  | EmptyString, _ => true
  | String _ _, EmptyString => false
  | String b q', String a s' => Ascii.eqb a b && startsWith s' q'
  end.

(** [s.includes(q)]: [q] occurs in [s] at some position. *)
Fixpoint includes (s q : string) : bool :=
  startsWith s q ||
  match s with
  | EmptyString => false
  | String _ s' => includes s' q
  end.

(** A string in a boolean position: only the empty string is falsy. *)
Definition truthy (s : string) : bool := negb (s =? "")%string.

(** A [string | null] in a boolean position. *)
Definition truthyOpt (o : option string) : bool :=
  match o with
  | Some s => truthy s
  | None => false
  end.

(** [x || 0] on a number: [0] (and [NaN], which a [Z] never is) gives [0]. *)
Definition orZero (x : Z) : Z := if x =? 0 then 0 else x.

(** Template-literal rendering of an integer.  This is the rendering of the
    JavaScript number for the safe integers ([isSafeInteger]); larger
    numbers round, and from 10^21 on are rendered with an exponent. *)
Definition numberToString (x : Z) : string :=
  NilZero.string_of_int (Z.to_int x).

(** *** [parseInt] with no radix argument *)

(** The white space that [parseInt] skips, within the range. *)
Definition isWhiteSpace (c : ascii) : bool :=
  let n := N_of_ascii c in
  ((9 <=? n) && (n <=? 13) || (n =? 32) || (n =? 160))%N.

Fixpoint trimStart (s : string) : string :=
  match s with
  | String c s' => if isWhiteSpace c then trimStart s' else s
  | EmptyString => EmptyString
  end.

(** Value of a code unit as a digit of radix [r] (10 or 16). *)
Definition digitValue (r : Z) (c : ascii) : option Z :=
  let n := Z.of_N (N_of_ascii c) in
  let v := if (48 <=? n) && (n <=? 57) then Some (n - 48)
           else if (97 <=? n) && (n <=? 102) then Some (n - 87)
           else if (65 <=? n) && (n <=? 70) then Some (n - 55)
           else None in
  match v with
  | Some d => if d <? r then Some d else None
  | None => None
  end.

(** Reads the longest prefix of digits; [acc] is [None] while no digit has
    been read. *)
Fixpoint parseDigits (r : Z) (s : string) (acc : option Z) : option Z :=
  match s with
  | EmptyString => acc
  | String c s' =>
      match digitValue r c with
      | Some d =>
          parseDigits r s' (Some (r * match acc with Some a => a | None => 0 end + d))
      | None => acc
      end
  end.

(** Splits off a leading sign: the sign's factor and the rest. *)
Definition stripSign (s : string) : Z * string :=
  match s with
  | String "-" s' => (-1, s')
  | String "+" s' => (1, s')
  | _ => (1, s)
  end.

(** Splits off a leading [0x] or [0X]: the radix and the rest. *)
Definition stripRadixPrefix (s : string) : Z * string :=
  match s with
  | String "0" (String "x" s') => (16, s')
  | String "0" (String "X" s') => (16, s')
  | _ => (10, s)
  end.

(** [parseInt(s)]; [None] is [NaN].  The value is the exact integer, which
    is the JavaScript number when it is a safe integer ([isSafeInteger]);
    beyond that [parseInt] gives the nearest double, of the same sign. *)
Definition parseInt (s : string) : option Z :=
  let '(sign, s1) := stripSign (trimStart s) in
  let '(radix, s2) := stripRadixPrefix s1 in
  match parseDigits radix s2 None with
  | Some n => Some (sign * n)
  | None => None
  end.

(** [parseInt(s) || 0]. *)
Definition parseIntOrZero (s : string) : Z :=
  match parseInt s with
  | Some n => orZero n
  | None => 0
  end.

End Js.

(** [Number.isSafeInteger]: the integers that a JavaScript number holds
    exactly, and that are rendered and parsed digit by digit. *)
Definition isSafeInteger (n : Z) : bool := Z.abs n <=? 9007199254740991.

(* ================================================================= *)
(** ** Strings of 16-bit code units *)

Module Utf16.

(** A string as the sequence of its UTF-16 code units. *)
Definition t : Type := list N.


Definition isLatin1 (c : N) : bool := (c <? 256)%N.

(** The Greek capitals U+0391-U+03A9 (U+03A2 is not assigned) and the
    small letters U+03B1-U+03C9, among them the final sigma U+03C2. *)
Definition isGreekCapital (c : N) : bool :=
  ((913 <=? c) && (c <=? 937) && negb (c =? 930))%N.

Definition isGreekSmall (c : N) : bool := ((945 <=? c) && (c <=? 969))%N.

Definition isGreekLetter (c : N) : bool := isGreekCapital c || isGreekSmall c.

Definition isUpperLatin1 (c : N) : bool :=
  ((65 <=? c) && (c <=? 90) ||
   (192 <=? c) && (c <=? 222) && negb (c =? 215))%N.

Definition lowerLatin1 (c : N) : N := if isUpperLatin1 c then (c + 32)%N else c.

(** Lower-casing of a string of Greek letters.  A capital has its small
    form 32 positions later, except that a capital sigma (U+03A3) after a
    letter and at the end of the string becomes the final sigma (U+03C2):
    every letter of this range is cased and none is ignorable, so the
    sigma is final exactly when it is last and not first.  [first] tells
    whether no letter has been passed yet. *)
Fixpoint lowerGreek (first : bool) (s : t) : t :=
  match s with
  | [] => []
  | c :: rest =>
      (if isGreekCapital c then
         if (c =? 931)%N && negb first && match rest with [] => true | _ => false end
         then 962%N else (c + 32)%N
       else c)
      :: lowerGreek false rest
  end.

(** [String.prototype.toLowerCase], on the strings of the Latin-1 range and
    on the strings of Greek letters; [None] on any other string, which this
    development does not lower-case. *)
Definition toLowerCase (s : t) : option t :=
  if forallb isLatin1 s then Some (map lowerLatin1 s)
  else if forallb isGreekLetter s then Some (lowerGreek true s)
  else None.

Fixpoint startsWith (s q : t) {struct q} : bool :=
  match q, s with
  | [], _ => true
  | _ :: _, [] => false
  | b :: q', a :: s' => (a =? b)%N && startsWith s' q'
  end.

(** [s.includes(q)]. *)
Fixpoint includes (s q : t) : bool :=
  startsWith s q ||
  match s with
  | [] => false
  | _ :: s' => includes s' q
  end.

(** [matchesSearch] of the [filter] callback on 16-bit strings, [||]
    stopping at its first true operand. *)
Definition matchesSearch (q title author : t) : option bool :=
  match q with
  | [] => Some true
  | _ :: _ =>
      match toLowerCase title, toLowerCase q with
      | Some lowTitle, Some lowQuery =>
          if includes lowTitle lowQuery then Some true
          else
            match toLowerCase author with
            | Some lowAuthor => Some (includes lowAuthor lowQuery)
            | None => None
            end
      | _, _ => None
      end
  end.

End Utf16.

(* ================================================================= *)
(** ** Data model *)

(** [interface ApiBook]. *)
Module ApiBook.
Record t : Type := mk {
  id : Z;
  title : string;
  author : string;
  category : string;
  isbn : string;
  status : string;
  pages : Z;
  pagesRead : Z;
  publisher : string;
  coverUrl : option string
}.
End ApiBook.

(** [ReadingStatus] of the [readingStatuses] prop, with the two fields the
    component reads. *)
Module ReadingStatus.
Record t : Type := mk {
  reading_status_id : string;
  status : string
}.
End ReadingStatus.

(** [interface BooksResponse]; [data] is [None] when the payload has no
    (or a falsy) [data] member, which [fetchBooks] tests for. *)
Module BooksResponse.
Record t : Type := mk {
  success : bool;
  data : option (list ApiBook.t);
  timestamp : string
}.
End BooksResponse.

(** [type FilterType = "all" | "status" | "category"]. *)
Inductive FilterType : Type :=
| FilterAll
| FilterStatus
| FilterCategory.

(** The [useState] cells of the component. *)
Record State : Type := mkState {
  searchQuery : string;
  activeFilter : FilterType;
  selectedStatus : option string;
  selectedCategory : option string;
  apiBooks : list ApiBook.t;
  selectedBook : option ApiBook.t;
  pagesRead : Z;
  rating : Z
}.

(** The state of the first render. *)
Definition initialState : State :=
  mkState "" FilterAll None None [] None 0 0.

(** The setters. *)
Definition setSearchQuery (v : string) (st : State) : State :=
  mkState v (activeFilter st) (selectedStatus st) (selectedCategory st)
          (apiBooks st) (selectedBook st) (pagesRead st) (rating st).

Definition setActiveFilter (v : FilterType) (st : State) : State :=
  mkState (searchQuery st) v (selectedStatus st) (selectedCategory st)
          (apiBooks st) (selectedBook st) (pagesRead st) (rating st).

Definition setSelectedStatus (v : option string) (st : State) : State :=
  mkState (searchQuery st) (activeFilter st) v (selectedCategory st)
          (apiBooks st) (selectedBook st) (pagesRead st) (rating st).

Definition setSelectedCategory (v : option string) (st : State) : State :=
  mkState (searchQuery st) (activeFilter st) (selectedStatus st) v
          (apiBooks st) (selectedBook st) (pagesRead st) (rating st).

Definition setApiBooks (v : list ApiBook.t) (st : State) : State :=
  mkState (searchQuery st) (activeFilter st) (selectedStatus st)
          (selectedCategory st) v (selectedBook st) (pagesRead st) (rating st).

Definition setSelectedBook (v : option ApiBook.t) (st : State) : State :=
  mkState (searchQuery st) (activeFilter st) (selectedStatus st)
          (selectedCategory st) (apiBooks st) v (pagesRead st) (rating st).

Definition setPagesRead (v : Z) (st : State) : State :=
  mkState (searchQuery st) (activeFilter st) (selectedStatus st)
          (selectedCategory st) (apiBooks st) (selectedBook st) v (rating st).

Definition setRating (v : Z) (st : State) : State :=
  mkState (searchQuery st) (activeFilter st) (selectedStatus st)
          (selectedCategory st) (apiBooks st) (selectedBook st) (pagesRead st) v.

(* ================================================================= *)
(** ** Requests and the environment's answers *)

Inductive Method : Type := GET | PUT | POST.

(** The argument of [JSON.stringify] in the two write requests. *)
Inductive Body : Type :=
| PagesReadBody (pagesRead : Z)
| ReviewBody (rating : Z) (comment : string).

Record Request : Type := mkRequest {
  method : Method;
  url : string;
  headers : list (string * string);
  body : option Body
}.

(** What [fetch] resolves to: [response.ok] and what [response.json()]
    gives, [None] when the payload does not parse. *)
Record Response : Type := mkResponse {
  ok : bool;
  json : option BooksResponse.t
}.

(** The fate of one request: the promise of [fetch] rejects (the network
    failed), or it resolves to a response. *)
Inductive FetchOutcome : Type :=
| Rejected
| Responded (r : Response).

Definition isRejected (o : FetchOutcome) : bool :=
  match o with
  | Rejected => true
  | Responded _ => false
  end.

(** A request the service received and answered with a 2xx status. *)
Definition isAccepted (o : FetchOutcome) : bool :=
  match o with
  | Rejected => false
  | Responded r => ok r
  end.

Definition hasMethod (m : Method) (r : Request) : bool :=
  match m, method r with
  | GET, GET | PUT, PUT | POST, POST => true
  | _, _ => false
  end.

(** The ways a [GET books] request fails to deliver a Catalog. *)
Inductive RefreshFailure : FetchOutcome -> Prop :=
| TransportFailure : RefreshFailure Rejected
| NonSuccessStatus j : RefreshFailure (Responded (mkResponse false j))
| MalformedPayload b : RefreshFailure (Responded (mkResponse b None))
| SuccessFalse b d ts :
    RefreshFailure (Responded (mkResponse b (Some (BooksResponse.mk false d ts))))
| MissingData b s ts :
    RefreshFailure (Responded (mkResponse b (Some (BooksResponse.mk s None ts)))).

(* ================================================================= *)
(** ** Case-insensitive occurrence, as the specification words it *)

(** Two code units are the same letter when they are equal or one is the
    lower-case form of the other. *)
Definition sameLetter (a b : ascii) : Prop :=
  a = b \/
  (Js.isUpper a = true /\ b = ascii_of_N (N_of_ascii a + 32)) \/
  (Js.isUpper b = true /\ a = ascii_of_N (N_of_ascii b + 32)).

(** Equality of strings up to the case of their letters. *)
Inductive equalIgnoringCase : string -> string -> Prop :=
| eic_empty : equalIgnoringCase "" ""
| eic_cons a b s t :
    sameLetter a b -> equalIgnoringCase s t ->
    equalIgnoringCase (String a s) (String b t).


(* ================================================================= *)
(** ** The component *)

(** The machine a handler runs on: the React state, and the world outside
    the component. *)
Record World (Store : Type) : Type := mkWorld {
  remote : Store;             (* the Book Store's data *)
  sent : list Request;        (* the requests issued so far, oldest first *)
  console : list string       (* the messages of [console.error] *)
}.
Arguments mkWorld {Store} _ _ _.
Arguments remote {Store} _.
Arguments sent {Store} _.
Arguments console {Store} _.

Record Machine (Store : Type) : Type := mkMachine {
  ui : State;
  world : World Store
}.
Arguments mkMachine {Store} _ _.
Arguments ui {Store} _.
Arguments world {Store} _.

(** How a piece of handler code ends: normally with a value, or by an
    exception (a rejected promise under [await]). *)
Inductive Completion (A : Type) : Type :=
| Normal (a : A)
| Thrown.
Arguments Normal {A} _.
Arguments Thrown {A}.

Section Component.

(** The [readingStatuses] prop. *)
Variable readingStatuses : list ReadingStatus.t.

(** [import.meta.env.VITE_API_BASE_URL], [None] when not configured. *)
Variable VITE_API_BASE_URL : option string.

(** The Book Store: its data, and the effect of a write request on it. *)
Variable Store : Type.
Variable serve : Request -> Store -> Store.

(** The environment's answer to each request of a transaction.  The
    requests of one save differ in their method, so a function of the
    request covers every combination of answers. *)
Variable net : Request -> FetchOutcome.

(** *** The filtered view *)

(** [matchesSearch] of the [filter] callback of [filteredApiBooks]. *)
Definition matchesSearch (q : string) (book : ApiBook.t) : bool :=
  (q =? "")%string
  || Js.includes (Js.toLowerCase (ApiBook.title book)) (Js.toLowerCase q)
  || Js.includes (Js.toLowerCase (ApiBook.author book)) (Js.toLowerCase q).

Definition isStatus (f : FilterType) : bool :=
  match f with FilterStatus => true | _ => false end.

Definition isCategory (f : FilterType) : bool :=
  match f with FilterCategory => true | _ => false end.

(** [readingStatuses.find(s => s.reading_status_id === selectedStatus)]. *)
Definition findStatus (selected : string) : option ReadingStatus.t :=
  find (fun s => (ReadingStatus.reading_status_id s =? selected)%string)
       readingStatuses.

(** The callback of [apiBooks.filter] in [filteredApiBooks]. *)
Definition filterCallback (st : State) (book : ApiBook.t) : bool :=
  let matches := matchesSearch (searchQuery st) book in
  if isStatus (activeFilter st) && Js.truthyOpt (selectedStatus st) then
    match selectedStatus st with
    | Some selected =>
        match findStatus selected with
        | Some status =>
            matches && (ApiBook.status book =? ReadingStatus.status status)%string
        | None => false
        end
    | None => false
    end
  else if isCategory (activeFilter st) && Js.truthyOpt (selectedCategory st) then
    match selectedCategory st with
    | Some selected => matches && (ApiBook.category book =? selected)%string
    | None => false
    end
  else matches.

Definition filteredApiBooks (st : State) : list ApiBook.t :=
  if (List.length (apiBooks st) =? 0)%nat then []
  else filter (filterCallback st) (apiBooks st).

(** *** The filter tabs *)

Definition handleFilterChange (filter : FilterType) (st : State) : State :=
  setSelectedCategory None (setSelectedStatus None (setActiveFilter filter st)).

(** [onClick] of a status badge and of a category badge: a second click on
    the selected badge clears the selection. *)
Definition statusBadgeClick (id : string) (st : State) : State :=
  match selectedStatus st with
  | Some cur => if (cur =? id)%string then setSelectedStatus None st
                else setSelectedStatus (Some id) st
  | None => setSelectedStatus (Some id) st
  end.

Definition categoryBadgeClick (c : string) (st : State) : State :=
  match selectedCategory st with
  | Some cur => if (cur =? c)%string then setSelectedCategory None st
                else setSelectedCategory (Some c) st
  | None => setSelectedCategory (Some c) st
  end.

(** *** The book-details dialog *)

(** [onClick] of a list item. *)
Definition bookItemClick (apiBook : ApiBook.t) (st : State) : State :=
  setRating 0
    (setPagesRead (Js.orZero (ApiBook.pagesRead apiBook))
       (setSelectedBook (Some apiBook) st)).

(** [onOpenChange] of the dialog. *)
Definition dialogOpenChange (open : bool) (st : State) : State :=
  if negb open then setSelectedBook None st else st.

(** [onChange] of the pages-read input, on [e.target.value].  The input is
    rendered only while a book is selected. *)
Definition pagesReadInputChange (targetValue : string) (st : State) : State :=
  match selectedBook st with
  | Some book =>
      let value := Js.parseIntOrZero targetValue in
      if value <=? ApiBook.pages book then setPagesRead value st else st
  | None => st
  end.

(** *** Asynchronous code *)

Definition Async (A : Type) : Type :=
  Machine Store -> Completion A * Machine Store.

Definition ret {A : Type} (a : A) : Async A := fun m => (Normal a, m).

Definition bind {A B : Type} (c : Async A) (k : A -> Async B) : Async B :=
  fun m =>
    match c m with
    | (Normal a, m') => k a m'
    | (Thrown, m') => (Thrown, m')
    end.

Local Notation "x <- c ;; k" := (bind c (fun x => k))
  (at level 61, c at next level, right associativity).
Local Notation "c ;;; k" := (bind c (fun _ => k))
  (at level 61, right associativity).

(** [try { body } catch (error) { handler }]. *)
Definition tryCatch {A : Type} (body handler : Async A) : Async A :=
  fun m =>
    match body m with
    | (Normal a, m') => (Normal a, m')
    | (Thrown, m') => handler m'
    end.

(** [if (c) { body }]. *)
Definition when (c : bool) (body : Async unit) : Async unit :=
  if c then body else ret tt.

(** A call of a state setter. *)
Definition setState (f : State -> State) : Async unit :=
  fun m => (Normal tt, mkMachine (f (ui m)) (world m)).

Definition consoleError (msg : string) : Async unit :=
  fun m =>
    let w := world m in
    (Normal tt, mkMachine (ui m) (mkWorld (remote w) (sent w) (console w ++ [msg])%list)).

(** Modelled from the spec: the Book Store service is outside the
    component.  A write request changes the store exactly when the service
    answers it with a 2xx status; a request that the network rejects or
    that is answered with another status leaves the store as it was, and so
    does every [GET]. *)
Definition deliver (r : Request) (store : Store) : Store :=
  match method r with
  | GET => store
  | PUT | POST => if isAccepted (net r) then serve r store else store
  end.

(** The machine once [r] has gone out: the request is logged and the
    service has dealt with it. *)
Definition issue (r : Request) (m : Machine Store) : Machine Store :=
  let w := world m in
  mkMachine (ui m)
    (mkWorld (deliver r (remote w)) (sent w ++ [r])%list (console w)).

(** [await fetch(url, init)]. *)
Definition fetch (r : Request) : Async Response :=
  fun m =>
    match net r with
    | Rejected => (Thrown, issue r m)
    | Responded resp => (Normal resp, issue r m)
    end.

(** [await response.json()]. *)
Definition responseJson (resp : Response) : Async BooksResponse.t :=
  fun m =>
    match json resp with
    | Some j => (Normal j, m)
    | None => (Thrown, m)
    end.

(** [const baseURL = import.meta.env.VITE_API_BASE_URL || ""]. *)
Definition baseURL : string :=
  match VITE_API_BASE_URL with
  | Some s => if Js.truthy s then s else ""
  | None => ""
  end.

Definition jsonHeaders : list (string * string) :=
  [("Content-Type", "application/json")].

Definition booksRequest : Request :=
  mkRequest GET
    (if Js.truthy baseURL then baseURL ++ "/api/books" else "/api/books")
    [] None.

Definition pagesReadRequest (id draft : Z) : Request :=
  mkRequest PUT
    (if Js.truthy baseURL
     then baseURL ++ "/api/books/" ++ Js.numberToString id ++ "/pages-read"
     else "/api/books/" ++ Js.numberToString id ++ "/pages-read")
    jsonHeaders (Some (PagesReadBody draft)).

Definition reviewRequest (id stars : Z) : Request :=
  mkRequest POST
    (if Js.truthy baseURL
     then baseURL ++ "/api/books/" ++ Js.numberToString id ++ "/review"
     else "/api/books/" ++ Js.numberToString id ++ "/review")
    jsonHeaders (Some (ReviewBody stars "")).

(** [fetchBooks]: the fetched books, or [None] for [null]. *)
Definition fetchBooks : Async (option (list ApiBook.t)) :=
  tryCatch
    (response <- fetch booksRequest ;;
     if ok response then
       result <- responseJson response ;;
       if BooksResponse.success result then
         match BooksResponse.data result with
         | Some data => setState (setApiBooks data) ;;; ret (Some data)
         | None => ret None
         end
       else ret None
     else ret None)
    (consoleError "Error fetching books:" ;;; ret None).

(** What [fetchBooks] makes of the answer to its request, used to state its
    effect: the Catalog it delivers, and what it writes to the console. *)
Definition fetchedBooks (o : FetchOutcome) : option (list ApiBook.t) :=
  match o with
  | Responded (mkResponse true (Some (BooksResponse.mk true (Some data) _))) =>
      Some data
  | _ => None
  end.

Definition fetchErrors (o : FetchOutcome) : list string :=
  match o with
  | Rejected => ["Error fetching books:"]
  | Responded (mkResponse true None) => ["Error fetching books:"]
  | _ => []
  end.

(** [updatedBooks.find(b => b.id === selectedBook.id)]. *)
Definition findBook (id : Z) (books : list ApiBook.t) : option ApiBook.t :=
  find (fun b => ApiBook.id b =? id) books.

(** [onClick] of the Save button.  [render] is the state of the render the
    handler belongs to: the handler reads [selectedBook], [pagesRead] and
    [rating] from it, also after an [await]. *)
Definition saveButtonClick (render : State) : Async unit :=
  match selectedBook render with
  | None => ret tt
  | Some book =>
      tryCatch
        (when (negb (pagesRead render =? Js.orZero (ApiBook.pagesRead book)))
           (_ <- fetch (pagesReadRequest (ApiBook.id book) (pagesRead render)) ;;
            ret tt) ;;;
         when (0 <? rating render)
           (_ <- fetch (reviewRequest (ApiBook.id book) (rating render)) ;;
            ret tt) ;;;
         updatedBooks <- fetchBooks ;;
         match updatedBooks with
         | Some books =>
             match findBook (ApiBook.id book) books with
             | Some updatedBook =>
                 setState (setSelectedBook (Some updatedBook)) ;;;
                 setState (setPagesRead (Js.orZero (ApiBook.pagesRead updatedBook)))
             | None => ret tt
             end
         | None => ret tt
         end ;;;
         setState (setSelectedBook None))
        (consoleError "Error saving book data:")
  end.

(** One refresh and one save, from a state and a store, with an empty
    request log and console: the machine they end in. *)
Definition start (st : State) (store : Store) : Machine Store :=
  mkMachine st (mkWorld store [] []).

Definition refresh (st : State) (store : Store) : Machine Store :=
  snd (fetchBooks (start st store)).

Definition save (st : State) (store : Store) : Machine Store :=
  snd (saveButtonClick st (start st store)).

(** The store after the accepted write requests of a log have been applied
    in order. *)
Definition applyAccepted (log : list Request) (store : Store) : Store :=
  fold_left (fun s r => deliver r s) log store.

End Component.

Arguments ret {Store A} a _.
Arguments bind {Store A B} c k _.
Arguments tryCatch {Store A} body handler _.
Arguments when {Store} c body _.
Arguments setState {Store} f _.
Arguments consoleError {Store} msg _.
Arguments responseJson {Store} resp _.
Arguments deliver {Store} serve net r store.
Arguments issue {Store} serve net r m.
Arguments fetch {Store} serve net r _.
Arguments fetchBooks VITE_API_BASE_URL {Store} serve net _.
Arguments saveButtonClick VITE_API_BASE_URL {Store} serve net render _.
Arguments start {Store} st store.
Arguments refresh VITE_API_BASE_URL {Store} serve net st store.
Arguments save VITE_API_BASE_URL {Store} serve net st store.
Arguments applyAccepted {Store} serve net log store.

(* ================================================================= *)
(** ** The category badges and the list area *)

(** [Array.from(new Set(xs))]: the distinct elements of [xs], each at the
    place of its first occurrence. *)
Definition uniqueStrings (xs : list string) : list string :=
  fold_left
    (fun seen x => if existsb (String.eqb x) seen then seen else (seen ++ [x])%list)
    xs [].

(** [xs.sort()] with no comparator orders strings by their code units.
    The engine chooses the algorithm; insertion is used here, and
    [sorted_permutation_unique] shows that the result is the same for any
    other. *)
Fixpoint insertSorted (x : string) (l : list string) : list string :=
  match l with
  | [] => [x]
  | y :: l' => if (x <=? y)%string then x :: l else y :: insertSorted x l'
  end.

Definition sortStrings (l : list string) : list string :=
  fold_right insertSorted [] l.

(** [apiCategories]. *)
Definition apiCategories (st : State) : list string :=
  if (List.length (apiBooks st) =? 0)%nat then []
  else sortStrings (uniqueStrings (map ApiBook.category (apiBooks st))).

(** A badge of the sub-filter row: its key, and whether it is drawn with the
    [default] variant (selected) rather than [outline]. *)
Record Badge : Type := mkBadge {
  badgeKey : string;
  badgeSelected : bool
}.

(** The row of category badges, rendered under the Category tab. *)
Definition categoryBadges (st : State) : list Badge :=
  if isCategory (activeFilter st) then
    if (0 <? List.length (apiBooks st))%nat then
      map (fun category =>
             mkBadge category
               match selectedCategory st with
               | Some selected => (selected =? category)%string
               | None => false
               end)
          (apiCategories st)
    else []
  else [].

(** The row of status badges, rendered under the Status tab: a badge is
    drawn as selected when [selectedStatus === status.reading_status_id]. *)
Definition statusBadges (readingStatuses : list ReadingStatus.t) (st : State)
  : list Badge :=
  if isStatus (activeFilter st) then
    map (fun status =>
           mkBadge (ReadingStatus.reading_status_id status)
             match selectedStatus st with
             | Some selected =>
                 (selected =? ReadingStatus.reading_status_id status)%string
             | None => false
             end)
        readingStatuses
  else [].

(** What the list area shows: the empty state with its title, its text and
    whether the button to add a first book is offered, or the list. *)
Inductive ListArea : Type :=
| EmptyState (title text : string) (addFirstBook : bool)
| BookList (items : list ApiBook.t).

Definition listArea (readingStatuses : list ReadingStatus.t) (st : State) : ListArea :=
  if (List.length (filteredApiBooks readingStatuses st) =? 0)%nat then
    EmptyState
      (if (List.length (apiBooks st) =? 0)%nat
       then "Your library is empty" else "No books found")
      (if (List.length (apiBooks st) =? 0)%nat
       then "Add your first book to get started"
       else "Try adjusting your search or filters")
      (List.length (apiBooks st) =? 0)%nat
  else BookList (filteredApiBooks readingStatuses st).

(** [onChange] of the search box. *)
Definition searchInputChange (targetValue : string) (st : State) : State :=
  setSearchQuery targetValue st.

(** What the user can do to the drafts while the dialog is open: type into
    the pages-read input, or pick a rating ([onRatingChange] is
    [setRating]). *)
Inductive DialogEvent : Type :=
| PagesInput (targetValue : string)
| RatingChange (stars : Z).

Definition dialogEvent (e : DialogEvent) (st : State) : State :=
  match e with
  | PagesInput v => pagesReadInputChange v st
  | RatingChange n => setRating n st
  end.

Definition dialogEvents (es : list DialogEvent) (st : State) : State :=
  fold_left (fun s e => dialogEvent e s) es st.

(** One list is part of another, in the same order. *)
Inductive Subsequence {A : Type} : list A -> list A -> Prop :=
| sub_nil : Subsequence [] []
| sub_skip x l l' : Subsequence l l' -> Subsequence l (x :: l')
| sub_keep x l l' : Subsequence l l' -> Subsequence (x :: l) (x :: l').

(* ================================================================= *)
(** ** Sample data *)

Module Sample.

Definition dune : ApiBook.t :=
  ApiBook.mk 1 "Dune" "Frank Herbert" "Science Fiction" "9780441172719"
             "Reading" 400 50 "Ace" None.

Definition foundation : ApiBook.t :=
  ApiBook.mk 2 "Foundation" "Isaac Asimov" "Science Fiction" "9780553293357"
             "Finished" 400 400 "Bantam" None.

(** A book whose page count is not known. *)
Definition pamphlet : ApiBook.t :=
  ApiBook.mk 3 "Pamphlet" "Anonymous" "Essays" "" "Not started" 0 0 "" None.

Definition catalog : list ApiBook.t := [dune; foundation].

Definition statuses : list ReadingStatus.t :=
  [ReadingStatus.mk "s1" "Not started";
   ReadingStatus.mk "s2" "Reading";
   ReadingStatus.mk "s3" "Finished"].

(** A reference list whose only entry has the empty string as its id. *)
Definition blankIdStatuses : list ReadingStatus.t :=
  [ReadingStatus.mk "" "Finished"].

(** The library after the first fetch, nothing selected. *)
Definition loaded : State :=
  setApiBooks catalog initialState.

(** The same book as [dune] after 120 pages. *)
Definition dune120 : ApiBook.t :=
  ApiBook.mk 1 "Dune" "Frank Herbert" "Science Fiction" "9780441172719"
             "Reading" 400 120 "Ace" None.

(** Dune open, the pages-read draft moved to 120, three stars chosen. *)
Definition editing : State :=
  setRating 3 (setPagesRead 120 (bookItemClick dune loaded)).

(** A store that records the write requests it has applied, newest first. *)
Definition Journal : Type := list Request.

Definition record (r : Request) (j : Journal) : Journal := r :: j.

(** An environment that answers by the request's method. *)
Definition netBy (put post get : FetchOutcome) (r : Request) : FetchOutcome :=
  match method r with
  | PUT => put
  | POST => post
  | GET => get
  end.

Definition accepted : FetchOutcome := Responded (mkResponse true None).

Definition serverError : FetchOutcome := Responded (mkResponse false None).

Definition books (l : list ApiBook.t) : FetchOutcome :=
  Responded (mkResponse true (Some (BooksResponse.mk true (Some l) "2024-01-01T00:00:00Z"))).

(** The title U+039F U+0394 U+039F U+03A3 (a Greek word in capitals, its
    last letter a sigma) and the one-letter query U+03A3. *)
Definition greekTitle : Utf16.t := [927; 916; 927; 931]%N.

Definition capitalSigma : Utf16.t := [931]%N.

(** The sample books, shelved the other way round and with a second copy. *)
Definition reshelved : list ApiBook.t := [pamphlet; foundation; dune; pamphlet].

End Sample.

(* ================================================================= *)
(** ** Strings: occurrence and case *)

Lemma startsWith_spec (s q : string) :
  Js.startsWith s q = true <-> exists post, s = q ++ post.
Proof.
  revert s. induction q as [|b q IH]; intros s; simpl.
  - split; [intros _; now exists s | reflexivity].
  - destruct s as [|a s]; simpl.
    + split; [discriminate | intros [post H]; discriminate].
    + rewrite andb_true_iff, Ascii.eqb_eq, IH. split.
      * intros [-> [post ->]]. now exists post.
      * intros [post H]. injection H as -> ->. split; [reflexivity | now exists post].
Qed.

Lemma includes_spec (s q : string) :
  Js.includes s q = true <-> exists pre post, s = pre ++ q ++ post.
Proof.
  induction s as [|a s IH]; simpl.
  - rewrite orb_false_r, startsWith_spec. split.
    + intros [post H]. now exists "", post.
    + intros [pre [post H]]. destruct pre; simpl in H; [now exists post | discriminate].
  - rewrite orb_true_iff, startsWith_spec, IH. split.
    + intros [[post H] | [pre [post H]]].
      * now exists "", post.
      * exists (String a pre), post. simpl. now rewrite H.
    + intros [pre [post H]]. destruct pre as [|c pre]; simpl in H.
      * left. now exists post.
      * right. injection H as _ H. now exists pre, post.
Qed.

Lemma toLowerCase_app (s t : string) :
  Js.toLowerCase (s ++ t) = Js.toLowerCase s ++ Js.toLowerCase t.
Proof.
  induction s as [|a s IH]; simpl; [reflexivity | now rewrite IH].
Qed.


(** The lower-case form of an upper-case letter is not upper-case. *)
Lemma isUpper_lower (a : ascii) :
  Js.isUpper a = true -> Js.isUpper (ascii_of_N (N_of_ascii a + 32)) = false.
Proof.
  destruct a as [[] [] [] [] [] [] [] []]; vm_compute; congruence.
Qed.

Lemma isUpper_bound (a : ascii) :
  Js.isUpper a = true -> (N_of_ascii a + 32 < 256)%N.
Proof.
  unfold Js.isUpper. intros H.
  apply orb_true_iff in H as [H | H].
  - apply andb_true_iff in H as [_ H]. apply N.leb_le in H. lia.
  - apply andb_true_iff in H as [H _]. apply andb_true_iff in H as [_ H].
    apply N.leb_le in H. lia.
Qed.

Lemma lower_injective_on_upper (a b : ascii) :
  Js.isUpper a = true -> Js.isUpper b = true ->
  ascii_of_N (N_of_ascii a + 32) = ascii_of_N (N_of_ascii b + 32) -> a = b.
Proof.
  intros Ha Hb H.
  apply (f_equal N_of_ascii) in H.
  rewrite !N_ascii_embedding in H by now apply isUpper_bound.
  rewrite <- (ascii_N_embedding a), <- (ascii_N_embedding b).
  f_equal. lia.
Qed.

Lemma sameLetter_iff (a b : ascii) :
  sameLetter a b <-> Js.toLowerCaseChar a = Js.toLowerCaseChar b.
Proof.
  unfold sameLetter, Js.toLowerCaseChar. split.
  - intros [-> | [[Ha ->] | [Hb ->]]].
    + reflexivity.
    + now rewrite Ha, (isUpper_lower a Ha).
    + now rewrite Hb, (isUpper_lower b Hb).
  - destruct (Js.isUpper a) eqn:Ha, (Js.isUpper b) eqn:Hb; intros H.
    + left. now apply lower_injective_on_upper.
    + right; left. now split.
    + right; right. now split.
    + now left.
Qed.

Lemma equalIgnoringCase_iff (s t : string) :
  equalIgnoringCase s t <-> Js.toLowerCase s = Js.toLowerCase t.
Proof.
  split.
  - induction 1 as [|a b s t Hab _ IH]; simpl; [reflexivity|].
    apply sameLetter_iff in Hab. now rewrite Hab, IH.
  - revert t. induction s as [|a s IH]; intros [|b t] H; simpl in H;
      try discriminate.
    + constructor.
    + injection H as Hab H. constructor; [now apply sameLetter_iff | now apply IH].
Qed.


(* ================================================================= *)
(** ** The Latin-1 range among the 16-bit strings *)










(* ================================================================= *)
(** ** The filtered view *)

Section FilterProperties.

Variable readingStatuses : list ReadingStatus.t.

Lemma filteredApiBooks_filter (st : State) :
  filteredApiBooks readingStatuses st =
  filter (filterCallback readingStatuses st) (apiBooks st).
Proof.
  unfold filteredApiBooks. destruct (apiBooks st); reflexivity.
Qed.

Lemma In_filteredApiBooks (st : State) (B : ApiBook.t) :
  In B (filteredApiBooks readingStatuses st) <->
  In B (apiBooks st) /\ filterCallback readingStatuses st B = true.
Proof.
  rewrite filteredApiBooks_filter. apply filter_In.
Qed.


(** With no status or category in force the callback is the search test. *)
Lemma filterCallback_unconstrained (st : State) (B : ApiBook.t) :
  isStatus (activeFilter st) && Js.truthyOpt (selectedStatus st) = false ->
  isCategory (activeFilter st) && Js.truthyOpt (selectedCategory st) = false ->
  filterCallback readingStatuses st B = matchesSearch (searchQuery st) B.
Proof.
  unfold filterCallback. now intros -> ->.
Qed.


(** C8. Choosing a filter tab makes that tab the active one and clears both
    the selected status and the selected category; the list computed next
    is the Catalog narrowed by the search test alone. *)
Theorem filter_change_resets_selection (m : FilterType) (st : State) :
  let st' := handleFilterChange m st in
  activeFilter st' = m /\
  selectedStatus st' = None /\
  selectedCategory st' = None /\
  filteredApiBooks readingStatuses st' =
    filter (matchesSearch (searchQuery st)) (apiBooks st).
Proof.
  cbn zeta. repeat split.
  rewrite filteredApiBooks_filter. simpl apiBooks.
  apply filter_ext. intros B.
  rewrite filterCallback_unconstrained; [reflexivity | | ]; simpl;
    apply andb_false_r.
Qed.

(** What the Status tab does as the code stands.  With a selected status
    that is neither absent nor the empty string, a book of the Catalog is
    listed exactly when it passes the search test, the selection is the id
    of an entry of the reference list, and the book's status is the label
    of the first such entry; with no selection, or the empty string
    selected, it is listed exactly when it passes the search test. *)
Theorem status_filter_iff (st : State) (B : ApiBook.t) :
  activeFilter st = FilterStatus ->
  In B (apiBooks st) ->
  (forall v, selectedStatus st = Some v -> v <> "" ->
     (In B (filteredApiBooks readingStatuses st) <->
      matchesSearch (searchQuery st) B = true /\
      exists s, findStatus readingStatuses v = Some s /\
                ApiBook.status B = ReadingStatus.status s)) /\
  (selectedStatus st = None \/ selectedStatus st = Some "" ->
     (In B (filteredApiBooks readingStatuses st) <->
      matchesSearch (searchQuery st) B = true)).
Proof.
  intros Hmode HB. split.
  - intros v Hv Hne. rewrite In_filteredApiBooks.
    unfold filterCallback. rewrite Hmode, Hv. simpl.
    unfold Js.truthy. apply String.eqb_neq in Hne. rewrite Hne. simpl.
    destruct (findStatus readingStatuses v) as [s|].
    + rewrite andb_true_iff, String.eqb_eq. split.
      * intros [_ [Hm Hs]]. split; [exact Hm | now exists s].
      * intros [Hm [s' [Hs' Hs]]]. injection Hs' as <-. tauto.
    + split; [intros [_ H]; discriminate | intros [_ [s [H _]]]; discriminate].
  - intros Hsel. rewrite In_filteredApiBooks.
    rewrite filterCallback_unconstrained; [tauto | | ].
    + destruct Hsel as [-> | ->]; rewrite Hmode; reflexivity.
    + rewrite Hmode. reflexivity.
Qed.

End FilterProperties.

(* ================================================================= *)
(** ** The pages-read input *)

Lemma orZero_id (x : Z) : Js.orZero x = x.
Proof.
  unfold Js.orZero. destruct (x =? 0) eqn:E; [apply Z.eqb_eq in E; now subst | reflexivity].
Qed.

(** Input that is not a number is read as 0. *)
Lemma parseIntOrZero_NaN (s : string) :
  Js.parseInt s = None -> Js.parseIntOrZero s = 0.
Proof.
  unfold Js.parseIntOrZero. now intros ->.
Qed.

(** The handler applies the value read from the input exactly when it does
    not exceed the page count of the open book. *)
Lemma pagesReadInputChange_spec (input : string) (st : State) (book : ApiBook.t) :
  selectedBook st = Some book ->
  let v := Js.parseIntOrZero input in
  (v <= ApiBook.pages book -> pagesReadInputChange input st = setPagesRead v st) /\
  (ApiBook.pages book < v -> pagesReadInputChange input st = st).
Proof.
  intros Hb v. unfold pagesReadInputChange. rewrite Hb. fold v.
  destruct (v <=? ApiBook.pages book) eqn:E.
  - split; [reflexivity | apply Z.leb_le in E; lia].
  - split; [apply Z.leb_gt in E; lia | reflexivity].
Qed.

Lemma pagesReadInputChange_selectedBook (input : string) (st : State) :
  selectedBook (pagesReadInputChange input st) = selectedBook st.
Proof.
  unfold pagesReadInputChange. destruct (selectedBook st) as [book|] eqn:E; [|exact E].
  destruct (_ <=? _); [simpl|]; exact E.
Qed.

(** C1, at an input the claim excludes.  With Dune open (400 pages, the
    draft seeded to 50), typing -5 into the pages-read input makes the
    draft -5: the handler tests the value against the page count only, so
    a negative value is applied although it is not within 0..400. *)
Theorem pages_read_negative_applied :
  let st := bookItemClick Sample.dune Sample.loaded in
  selectedBook st = Some Sample.dune /\
  pagesRead st = 50 /\
  Js.parseIntOrZero "-5" = -5 /\
  pagesRead (pagesReadInputChange "-5" st) = -5.
Proof.
  cbn zeta. repeat split.
Qed.

(** C10. While the open book has a page count of 0, an edit of the
    pages-read input whose value is above 0 leaves the state as it was, an
    edit whose value is 0 or below is applied, and no run of edits brings
    the draft to a value above 0 that it did not have before. *)
Theorem zero_pages_rejects_positive (st : State) (book : ApiBook.t) :
  selectedBook st = Some book ->
  ApiBook.pages book = 0 ->
  (forall input, 0 < Js.parseIntOrZero input ->
     pagesReadInputChange input st = st) /\
  (forall input, Js.parseIntOrZero input <= 0 ->
     pagesReadInputChange input st = setPagesRead (Js.parseIntOrZero input) st) /\
  (forall inputs,
     let st' := fold_left (fun s i => pagesReadInputChange i s) inputs st in
     pagesRead st' = pagesRead st \/ pagesRead st' <= 0).
Proof.
  intros Hb Hp. split; [|split].
  - intros input Hv.
    apply (pagesReadInputChange_spec input st book Hb). lia.
  - intros input Hv.
    apply (pagesReadInputChange_spec input st book Hb). lia.
  - intros inputs. cbn zeta.
    assert (G : forall s, selectedBook s = Some book ->
                (pagesRead s = pagesRead st \/ pagesRead s <= 0) ->
                let s' := fold_left (fun s i => pagesReadInputChange i s) inputs s in
                pagesRead s' = pagesRead st \/ pagesRead s' <= 0).
    { induction inputs as [|i inputs IH]; intros s Hs Hinv; simpl; [exact Hinv|].
      apply IH.
      - now rewrite pagesReadInputChange_selectedBook.
      - destruct (pagesReadInputChange_spec i s book Hs) as [Hle Hgt].
        destruct (Z_le_gt_dec (Js.parseIntOrZero i) (ApiBook.pages book)) as [L|G].
        + rewrite (Hle L). simpl. right. lia.
        + rewrite Hgt by lia. exact Hinv. }
    apply G; [exact Hb | now left].
Qed.

(* ================================================================= *)
(** ** The save transaction *)

Section SaveProperties.

Variable VITE_API_BASE_URL : option string.
Variable Store : Type.
Variable serve : Request -> Store -> Store.
Variable net : Request -> FetchOutcome.

Local Abbreviation put := (pagesReadRequest VITE_API_BASE_URL).
Local Abbreviation post := (reviewRequest VITE_API_BASE_URL).
Local Abbreviation get := (booksRequest VITE_API_BASE_URL).
Local Abbreviation runSave := (save VITE_API_BASE_URL serve net).
Local Abbreviation changed st book :=
  (negb (pagesRead st =? ApiBook.pagesRead book)).
Local Abbreviation rated st := (0 <? rating st).

(** *** Steps *)

Lemma guarded_fetch (c : bool) (r : Request) (m : Machine Store) :
  when c (bind (fetch serve net r) (fun _ => ret tt)) m =
  if c then (if isRejected (net r) then Thrown else Normal tt, issue serve net r m)
  else (Normal tt, m).
Proof.
  unfold when, bind, fetch, ret. destruct c; [|reflexivity].
  destruct (net r); reflexivity.
Qed.

Lemma fetchBooks_run (m : Machine Store) :
  fetchBooks VITE_API_BASE_URL serve net m =
  (Normal (fetchedBooks (net get)),
   mkMachine
     match fetchedBooks (net get) with
     | Some data => setApiBooks data (ui m)
     | None => ui m
     end
     (mkWorld (remote (world m)) (sent (world m) ++ [get])%list
              (console (world m) ++ fetchErrors (net get))%list)).
Proof.
  unfold fetchBooks, tryCatch, bind, fetch, responseJson, setState,
    consoleError, ret, issue.
  destruct (net get) as [|[[] [[[] [d|] ts]|]]]; cbn; rewrite ?app_nil_r;
    try reflexivity.
  all: destruct m as [u [r s c]]; cbn; rewrite ?app_nil_r; reflexivity.
Qed.

(** The Save handler, step by step: the two guarded write requests, each of
    which ends the handler in its [catch] when the network rejects it, then
    the refresh, the reconciliation and the close. *)
Lemma save_run (st : State) (store : Store) (book : ApiBook.t) :
  selectedBook st = Some book ->
  let id := ApiBook.id book in
  let putR := put id (pagesRead st) in
  let postR := post id (rating st) in
  let m0 := start st store in
  let m1 := if changed st book then issue serve net putR m0 else m0 in
  let m2 := if rated st then issue serve net postR m1 else m1 in
  runSave st store =
  if changed st book && isRejected (net putR) then
    snd (consoleError "Error saving book data:" m1)
  else if rated st && isRejected (net postR) then
    snd (consoleError "Error saving book data:" m2)
  else
    mkMachine
      match fetchedBooks (net get) with
      | Some books =>
          match findBook id books with
          | Some u =>
              setSelectedBook None
                (setPagesRead (ApiBook.pagesRead u)
                   (setSelectedBook (Some u) (setApiBooks books st)))
          | None => setSelectedBook None (setApiBooks books st)
          end
      | None => setSelectedBook None st
      end
      (mkWorld (remote (world m2)) (sent (world m2) ++ [get])%list
               (console (world m2) ++ fetchErrors (net get))%list).
Proof.
  intros Hb id putR postR m0.
  set (c1 := changed st book). set (c2 := rated st). intros m1 m2.
  unfold save, saveButtonClick. rewrite Hb, orZero_id.
  fold id putR postR m0 c1 c2. unfold tryCatch.
  unfold bind at 1. rewrite guarded_fetch.
  assert (U1 : ui m1 = st) by (unfold m1; destruct c1; reflexivity).
  assert (U2 : ui m2 = st) by (unfold m2; destruct c2; exact U1).
  destruct c1 eqn:E1; [destruct (isRejected (net putR)) eqn:R1|];
    cbn [andb]; try reflexivity; fold m1.
  all: unfold bind at 1; rewrite guarded_fetch.
  all: destruct c2 eqn:E2; [destruct (isRejected (net postR)) eqn:R2|];
    cbn [andb]; try reflexivity; fold m2.
  all: unfold bind at 1; rewrite fetchBooks_run.
  all: destruct (fetchedBooks (net get)) as [books|];
    [destruct (findBook id books) as [u|]|]; cbn; rewrite ?orZero_id, ?U2;
    reflexivity.
Qed.

(** Rewrites a save into its steps and splits on the two guards and on
    whether each write request is rejected. *)
Ltac by_save_cases st store book Hb :=
  rewrite (save_run st store book Hb); cbn zeta;
  destruct (negb (pagesRead st =? ApiBook.pagesRead book)), (0 <? rating st),
    (isRejected (net (put (ApiBook.id book) (pagesRead st)))),
    (isRejected (net (post (ApiBook.id book) (rating st)))).

(** The requests of a save, in the order they go out. *)
Lemma save_log (st : State) (store : Store) (book : ApiBook.t) :
  selectedBook st = Some book ->
  let putR := put (ApiBook.id book) (pagesRead st) in
  let postR := post (ApiBook.id book) (rating st) in
  sent (world (runSave st store)) =
  ((if changed st book then [putR] else []) ++
   (if changed st book && isRejected (net putR) then []
    else (if rated st then [postR] else []) ++
         (if rated st && isRejected (net postR) then [] else [get])))%list.
Proof.
  intros Hb. cbn zeta. now by_save_cases st store book Hb.
Qed.

(** The React state a save ends in: untouched when a write request was
    rejected, closed otherwise. *)
Lemma save_ui (st : State) (store : Store) (book : ApiBook.t) :
  selectedBook st = Some book ->
  ui (runSave st store) =
  if changed st book && isRejected (net (put (ApiBook.id book) (pagesRead st)))
     || rated st && isRejected (net (post (ApiBook.id book) (rating st)))
  then st
  else
    match fetchedBooks (net get) with
    | Some books =>
        match findBook (ApiBook.id book) books with
        | Some u =>
            setSelectedBook None
              (setPagesRead (ApiBook.pagesRead u)
                 (setSelectedBook (Some u) (setApiBooks books st)))
        | None => setSelectedBook None (setApiBooks books st)
        end
    | None => setSelectedBook None st
    end.
Proof.
  intros Hb. now by_save_cases st store book Hb.
Qed.

(** The store after a save is the store before with the requests of the
    log delivered in order. *)
Lemma save_remote (st : State) (store : Store) (book : ApiBook.t) :
  selectedBook st = Some book ->
  remote (world (runSave st store)) =
  applyAccepted serve net (sent (world (runSave st store))) store.
Proof.
  intros Hb. now by_save_cases st store book Hb.
Qed.

Lemma save_console (st : State) (store : Store) (book : ApiBook.t) :
  selectedBook st = Some book ->
  console (world (runSave st store)) =
  if changed st book && isRejected (net (put (ApiBook.id book) (pagesRead st)))
     || rated st && isRejected (net (post (ApiBook.id book) (rating st)))
  then ["Error saving book data:"]
  else fetchErrors (net get).
Proof.
  intros Hb. now by_save_cases st store book Hb.
Qed.

(** *** Facts about logs and answers *)

Lemma changed_iff (st : State) (book : ApiBook.t) :
  changed st book = true <-> pagesRead st <> ApiBook.pagesRead book.
Proof.
  rewrite negb_true_iff. apply Z.eqb_neq.
Qed.

Lemma requests_distinct (id d id' s : Z) :
  put id d <> post id' s /\ put id d <> get /\ post id' s <> get.
Proof.
  repeat split; discriminate.
Qed.

Lemma RefreshFailure_iff (o : FetchOutcome) :
  RefreshFailure o <-> fetchedBooks o = None.
Proof.
  split.
  - intros []; try reflexivity.
    + destruct b; reflexivity.
    + destruct b; reflexivity.
    + destruct b, s; reflexivity.
  - destruct o as [|[[] [[[] [d|] ts]|]]]; simpl; intros H;
      try discriminate; constructor.
Qed.

Lemma findBook_sound (id : Z) (books : list ApiBook.t) (u : ApiBook.t) :
  findBook id books = Some u -> In u books /\ ApiBook.id u = id.
Proof.
  intros H. apply find_some in H as [Hin Hid]. split; [exact Hin | now apply Z.eqb_eq].
Qed.

Lemma findBook_absent (id : Z) (books : list ApiBook.t) :
  findBook id books = None <-> forall b, In b books -> ApiBook.id b <> id.
Proof.
  split.
  - intros H b Hb. apply Z.eqb_neq. exact (find_none _ _ H b Hb).
  - intros H. destruct (findBook id books) as [u|] eqn:E; [|reflexivity].
    apply findBook_sound in E as [Hin Hid]. now destruct (H u Hin).
Qed.

(** In a Catalog whose ids are unique, the book found by id is the book
    with that id. *)
Lemma findBook_unique (id : Z) (books : list ApiBook.t) (b : ApiBook.t) :
  NoDup (map ApiBook.id books) ->
  In b books -> ApiBook.id b = id -> findBook id books = Some b.
Proof.
  unfold findBook. induction books as [|x books IH]; intros Hnd Hin Hid;
    [destruct Hin|].
  simpl in Hnd. inversion Hnd as [|? ? Hx Hnd']; subst. simpl.
  destruct Hin as [-> | Hin].
  - now rewrite Z.eqb_refl.
  - destruct (ApiBook.id x =? ApiBook.id b) eqn:E.
    + apply Z.eqb_eq in E. exfalso. apply Hx. rewrite E. now apply in_map.
    + now apply IH.
Qed.

(** *** The progress update *)

(** C6. A save issues the progress-update request, carrying the draft,
    exactly when the draft differs from the [pagesRead] of the book held by
    the session; it is then the first request of the save and the only
    [PUT], and it goes out before the request that refreshes the Catalog. *)
Theorem progress_update_iff (st : State) (store : Store) (book : ApiBook.t) :
  selectedBook st = Some book ->
  let log := sent (world (runSave st store)) in
  let putR := put (ApiBook.id book) (pagesRead st) in
  body putR = Some (PagesReadBody (pagesRead st)) /\
  (In putR log <-> pagesRead st <> ApiBook.pagesRead book) /\
  (forall r, In r log -> method r = PUT -> r = putR) /\
  (In putR log -> exists rest, log = putR :: rest /\ ~ In putR rest) /\
  (forall i j, nth_error log i = Some putR -> nth_error log j = Some get ->
               (i < j)%nat).
Proof.
  intros Hb. cbn zeta. rewrite (save_log st store book Hb). cbn zeta.
  pose proof (changed_iff st book) as Hc.
  set (putR := put (ApiBook.id book) (pagesRead st)) in *.
  set (postR := post (ApiBook.id book) (rating st)) in *.
  destruct (requests_distinct (ApiBook.id book) (pagesRead st)
              (ApiBook.id book) (rating st)) as [D1 [D2 D3]].
  fold putR postR in D1, D2, D3.
  assert (M1 : method postR <> PUT) by discriminate.
  assert (M2 : method get <> PUT) by discriminate.
  split; [reflexivity|].
  destruct (changed st book), (rated st), (isRejected (net putR)),
    (isRejected (net postR)); cbn [andb app].
  all: split; [simpl; intuition congruence|].
  all: split; [intros r H Hm; simpl in H; intuition (subst; congruence)|].
  all: split;
    [intros H;
     first [ eexists; split; [reflexivity|]; simpl; intuition congruence
           | exfalso; simpl in H; intuition congruence ]|].
  all: intros i j Hi Hj;
    destruct i as [|[|[|i]]]; simpl in Hi; try congruence;
    destruct j as [|[|[|j]]]; simpl in Hj; try congruence; try lia;
    try (destruct i; discriminate); try (destruct j; discriminate).
Qed.

(** *** The review *)

(** C5, as amended.  A save with a rating of 0 issues no add-review
    request.  A save with a rating from 1 to 5 issues exactly one, carrying
    the rating and an empty comment, provided the progress-update request,
    if one went out, was not rejected by the network; when that request is
    rejected the save stops there and issues no add-review request. *)
Theorem review_request_rule (st : State) (store : Store) (book : ApiBook.t) :
  selectedBook st = Some book ->
  let log := sent (world (runSave st store)) in
  let putR := put (ApiBook.id book) (pagesRead st) in
  let postR := post (ApiBook.id book) (rating st) in
  body postR = Some (ReviewBody (rating st) "") /\
  (rating st = 0 -> filter (hasMethod POST) log = []) /\
  (1 <= rating st <= 5 ->
   (In putR log -> isRejected (net putR) = false) ->
   filter (hasMethod POST) log = [postR]) /\
  (In putR log -> isRejected (net putR) = true ->
   filter (hasMethod POST) log = []).
Proof.
  intros Hb. cbn zeta. rewrite (save_log st store book Hb). cbn zeta.
  set (putR := put (ApiBook.id book) (pagesRead st)).
  set (postR := post (ApiBook.id book) (rating st)).
  split; [reflexivity|].
  destruct (requests_distinct (ApiBook.id book) (pagesRead st)
              (ApiBook.id book) (rating st)) as [D1 [D2 D3]].
  fold putR postR in D1, D2, D3.
  assert (R0 : rating st = 0 -> rated st = false)
    by (intros ->; reflexivity).
  assert (R1 : 1 <= rating st <= 5 -> rated st = true)
    by (intros H; apply Z.ltb_lt; lia).
  destruct (changed st book), (rated st) eqn:Er, (isRejected (net putR)) eqn:Ep,
    (isRejected (net postR)); cbn [andb app].
  all: split; [intros H; (reflexivity || (apply R0 in H; discriminate))|].
  all: split;
    [intros H G;
     first [ reflexivity
           | apply R1 in H; discriminate
           | discriminate G; left; reflexivity ]|].
  all: intros H G;
    first [ reflexivity | discriminate G
          | exfalso; simpl in H; intuition congruence ].
Qed.

(** *** Failed requests *)

(** C2, as amended.  A write request that is not answered with a 2xx status
    leaves the store as it is, and the store after a save is the store
    before with the requests of the save delivered in order.  When no write
    request of the save is rejected by the network (a non-2xx answer is not
    a rejection) the refresh is attempted and the session ends closed.
    When the network rejects a write request, that request is the last of
    the save, no refresh is attempted, and the React state, with the open
    book and both drafts, is what it was before the save.  Whenever the
    refresh is attempted the session ends closed.  A write request that the
    network answers, with whatever status, is not the last request of the
    save: another request follows it. *)
Theorem write_failure_outcome (st : State) (store : Store) (book : ApiBook.t) :
  selectedBook st = Some book ->
  let m := runSave st store in
  let log := sent (world m) in
  (forall r s, isAccepted (net r) = false -> deliver serve net r s = s) /\
  remote (world m) = applyAccepted serve net log store /\
  ((forall r, In r log -> method r <> GET -> isRejected (net r) = false) ->
   In get log /\ selectedBook (ui m) = None) /\
  (forall r, In r log -> method r <> GET -> isRejected (net r) = true ->
   ui m = st /\ (exists earlier, log = earlier ++ [r])%list /\ ~ In get log) /\
  (In get log -> selectedBook (ui m) = None) /\
  (forall r, In r log -> method r <> GET -> isRejected (net r) = false ->
   exists earlier next later, log = (earlier ++ r :: next :: later)%list).
Proof.
  intros Hb. cbn zeta.
  split.
  { intros r s H. unfold deliver. rewrite H. now destruct (method r). }
  split; [exact (save_remote st store book Hb)|].
  rewrite (save_log st store book Hb), (save_ui st store book Hb). cbn zeta.
  set (putR := put (ApiBook.id book) (pagesRead st)).
  set (postR := post (ApiBook.id book) (rating st)).
  destruct (requests_distinct (ApiBook.id book) (pagesRead st)
              (ApiBook.id book) (rating st)) as [D1 [D2 D3]].
  fold putR postR in D1, D2, D3.
  assert (M1 : method putR <> GET) by discriminate.
  assert (M2 : method postR <> GET) by discriminate.
  assert (M3 : method get = GET) by reflexivity.
  assert (Closed : selectedBook
            match fetchedBooks (net get) with
            | Some books =>
                match findBook (ApiBook.id book) books with
                | Some u =>
                    setSelectedBook None
                      (setPagesRead (ApiBook.pagesRead u)
                         (setSelectedBook (Some u) (setApiBooks books st)))
                | None => setSelectedBook None (setApiBooks books st)
                end
            | None => setSelectedBook None st
            end = None).
  { destruct (fetchedBooks (net get)) as [books|];
      [destruct (findBook (ApiBook.id book) books)|]; reflexivity. }
  destruct (changed st book), (rated st), (isRejected (net putR)) eqn:Ep,
    (isRejected (net postR)) eqn:Eq; cbn [andb orb app].
  all: split;
    [intros H;
     first [ split; [simpl; tauto | exact Closed]
           | assert (X : isRejected (net putR) = false)
               by (apply H; [simpl; tauto | exact M1]);
             congruence
           | assert (X : isRejected (net postR) = false)
               by (apply H; [simpl; tauto | exact M2]);
             congruence ]|].
  all: split;
    [intros r H Hm Hr; simpl in H;
     repeat (destruct H as [H | H];
             [destruct H;
              first [ congruence
                    | split; [reflexivity|]; split;
                      [ first [ now exists [] | now exists [putR] ]
                      | simpl; intuition congruence ] ]|]);
     now destruct H|].
  all: split;
    [intros H; first [exact Closed | exfalso; simpl in H; intuition congruence]|].
  all: intros r H Hm Hr; simpl in H;
    repeat (destruct H as [H | H];
            [destruct H;
             first [ congruence
                   | eexists [], _, _; reflexivity
                   | eexists [putR], _, _; reflexivity ]|]);
    now destruct H.
Qed.

(** *** The refresh *)

(** C3. When the request for the books fails (the network rejects it, the
    answer has a non-2xx status, its payload does not parse, says
    [success = false] or has no [data]), [fetchBooks] returns [null] and
    leaves the Catalog, and the rest of the React state, as it was; a save
    that gets as far as this request still ends with the session closed and
    the Catalog as it was. *)
Theorem refresh_failure_keeps_catalog :
  RefreshFailure (net get) ->
  (forall st store,
     fst (fetchBooks VITE_API_BASE_URL serve net (start st store)) = Normal None /\
     ui (refresh VITE_API_BASE_URL serve net st store) = st) /\
  (forall st store book,
     selectedBook st = Some book ->
     In get (sent (world (runSave st store))) ->
     apiBooks (ui (runSave st store)) = apiBooks st /\
     selectedBook (ui (runSave st store)) = None).
Proof.
  intros F. apply RefreshFailure_iff in F. split.
  - intros st store. unfold refresh. rewrite fetchBooks_run, F. now split.
  - intros st store book Hb.
    rewrite (save_log st store book Hb), (save_ui st store book Hb), F.
    cbn zeta.
    destruct (requests_distinct (ApiBook.id book) (pagesRead st)
                (ApiBook.id book) (rating st)) as [D1 [D2 D3]].
    destruct (changed st book), (rated st),
      (isRejected (net (put (ApiBook.id book) (pagesRead st)))),
      (isRejected (net (post (ApiBook.id book) (rating st))));
      cbn [andb orb app]; intros H;
      first [ now split | exfalso; simpl in H; intuition congruence ].
Qed.

(** C7. When the refresh of a save succeeds with a Catalog in which a book
    has the id of the open book, the pages-read draft after the save is the
    [pagesRead] of the book found under that id, which is the book with
    that id when ids are unique in the Catalog; when no book has that id
    the draft stays as it was and nothing is reported on the console.  In
    both cases the Catalog is the refreshed one and the session is closed. *)
Theorem save_reconciles_draft
    (st : State) (store : Store) (book : ApiBook.t)
    (books : list ApiBook.t) (ts : string) :
  selectedBook st = Some book ->
  In get (sent (world (runSave st store))) ->
  net get = Responded (mkResponse true
              (Some (BooksResponse.mk true (Some books) ts))) ->
  let m := runSave st store in
  apiBooks (ui m) = books /\
  selectedBook (ui m) = None /\
  (forall u, findBook (ApiBook.id book) books = Some u ->
     pagesRead (ui m) = ApiBook.pagesRead u) /\
  (NoDup (map ApiBook.id books) ->
   forall b, In b books -> ApiBook.id b = ApiBook.id book ->
     pagesRead (ui m) = ApiBook.pagesRead b) /\
  ((forall b, In b books -> ApiBook.id b <> ApiBook.id book) ->
     pagesRead (ui m) = pagesRead st /\ console (world m) = []).
Proof.
  intros Hb Hget Hnet. cbn zeta.
  assert (F : fetchedBooks (net get) = Some books) by now rewrite Hnet.
  assert (Ok : changed st book
               && isRejected (net (put (ApiBook.id book) (pagesRead st)))
               || rated st
                  && isRejected (net (post (ApiBook.id book) (rating st)))
               = false).
  { revert Hget. rewrite (save_log st store book Hb). cbn zeta.
    destruct (requests_distinct (ApiBook.id book) (pagesRead st)
                (ApiBook.id book) (rating st)) as [D1 [D2 D3]].
    destruct (changed st book), (rated st),
      (isRejected (net (put (ApiBook.id book) (pagesRead st)))),
      (isRejected (net (post (ApiBook.id book) (rating st))));
      cbn [andb orb app]; intros H;
      first [ reflexivity | exfalso; simpl in H; intuition congruence ]. }
  rewrite (save_ui st store book Hb), (save_console st store book Hb), Ok, F.
  assert (First : forall u, findBook (ApiBook.id book) books = Some u ->
            pagesRead
              match findBook (ApiBook.id book) books with
              | Some u0 =>
                  setSelectedBook None
                    (setPagesRead (ApiBook.pagesRead u0)
                       (setSelectedBook (Some u0) (setApiBooks books st)))
              | None => setSelectedBook None (setApiBooks books st)
              end = ApiBook.pagesRead u).
  { intros u Hu. now rewrite Hu. }
  split; [destruct (findBook _ books); reflexivity|].
  split; [destruct (findBook _ books); reflexivity|].
  split; [exact First|].
  split.
  - intros Hnd b Hin Hid. apply First. now apply findBook_unique.
  - intros Habs. apply findBook_absent in Habs. rewrite Habs, Hnet. now split.
Qed.

End SaveProperties.

(* ================================================================= *)
(** ** The properties at work on the sample library *)

(** *** The primitives *)

Example parseInt_decimal : Js.parseInt "120" = Some 120.
Proof. reflexivity. Qed.

Example parseInt_negative : Js.parseInt "  -5" = Some (-5).
Proof. reflexivity. Qed.

Example parseInt_hexadecimal : Js.parseInt "0x1F" = Some 31.
Proof. reflexivity. Qed.

Example parseInt_stops_at_point : Js.parseInt "12.7" = Some 12.
Proof. reflexivity. Qed.

Example parseInt_not_a_number :
  Js.parseInt "abc" = None /\ Js.parseInt "" = None /\ Js.parseInt "0x" = None.
Proof. repeat split. Qed.

Example includes_lowered :
  Js.includes (Js.toLowerCase "Dune") (Js.toLowerCase "UN") = true.
Proof. reflexivity. Qed.

Example numberToString_sample :
  Js.numberToString (-12) = "-12" /\ Js.numberToString 0 = "0".
Proof. split; reflexivity. Qed.

(** *** The scenarios of the specification *)

(** Scenario 1: the Status tab with the status whose label is Finished. *)
Example scenario_status_finished :
  filteredApiBooks Sample.statuses
    (statusBadgeClick "s3" (handleFilterChange FilterStatus Sample.loaded)) =
  [Sample.foundation].
Proof. reflexivity. Qed.

(** Scenario 2: 450 pages for a book of 400 is not applied. *)
Example scenario_edit_rejected :
  pagesRead (pagesReadInputChange "450" (bookItemClick Sample.dune Sample.loaded)) = 50.
Proof. reflexivity. Qed.

(** Scenario 3: a changed draft and no rating: one progress update with
    120 pages, no review, one refresh, and the session closed. *)
Example scenario_save_progress :
  let st := setPagesRead 120 (bookItemClick Sample.dune Sample.loaded) in
  let m := save None Sample.record
             (Sample.netBy Sample.accepted Sample.accepted
                (Sample.books [Sample.dune120; Sample.foundation]))
             st [] in
  sent (world m) = [pagesReadRequest None 1 120; booksRequest None] /\
  remote (world m) = [pagesReadRequest None 1 120] /\
  selectedBook (ui m) = None /\
  apiBooks (ui m) = [Sample.dune120; Sample.foundation].
Proof. repeat split. Qed.

(** Scenario 4: the refresh fails. *)
Example scenario_refresh_fails :
  let m := save None Sample.record
             (Sample.netBy Sample.accepted Sample.accepted Rejected)
             Sample.editing [] in
  apiBooks (ui m) = Sample.catalog /\ selectedBook (ui m) = None /\
  console (world m) = ["Error fetching books:"].
Proof. repeat split. Qed.

(** *** The filtered view *)


Lemma status_filter_iff_witness :
  let st := statusBadgeClick "s3" (handleFilterChange FilterStatus Sample.loaded) in
  activeFilter st = FilterStatus /\
  In Sample.foundation (apiBooks st) /\
  (In Sample.foundation (filteredApiBooks Sample.statuses st) <->
   matchesSearch (searchQuery st) Sample.foundation = true /\
   exists s, findStatus Sample.statuses "s3" = Some s /\
             ApiBook.status Sample.foundation = ReadingStatus.status s).
Proof.
  cbn zeta.
  set (st := statusBadgeClick "s3" (handleFilterChange FilterStatus Sample.loaded)).
  assert (Hin : In Sample.foundation (apiBooks st)) by (simpl; auto).
  split; [reflexivity|]. split; [exact Hin|].
  apply (proj1 (status_filter_iff Sample.statuses st Sample.foundation
                  eq_refl Hin) "s3" eq_refl).
  discriminate.
Defined.

(** C9, at an input where the code departs from it.  The reference list
    has one status, with the empty string as its id and the label
    Finished.  After the Status tab and that badge are clicked the
    selection is the empty string, not absent: the badge is drawn as
    selected, and the selection resolves to the label Finished.  Dune's
    status is Reading, yet the list is the whole Catalog, Dune included:
    the guard of the filter tests the selection for truth, and the empty
    string is not true. *)
Theorem status_filter_blank_id_not_narrowed :
  let st := statusBadgeClick "" (handleFilterChange FilterStatus Sample.loaded) in
  activeFilter st = FilterStatus /\
  selectedStatus st = Some "" /\
  statusBadges Sample.blankIdStatuses st = [mkBadge "" true] /\
  findStatus Sample.blankIdStatuses "" = Some (ReadingStatus.mk "" "Finished") /\
  ApiBook.status Sample.dune = "Reading" /\
  filteredApiBooks Sample.blankIdStatuses st = [Sample.dune; Sample.foundation].
Proof.
  cbn zeta. repeat split.
Qed.

(** *** The pages-read input *)

Lemma zero_pages_rejects_positive_witness :
  let st := bookItemClick Sample.pamphlet (setApiBooks [Sample.pamphlet] initialState) in
  selectedBook st = Some Sample.pamphlet /\
  ApiBook.pages Sample.pamphlet = 0 /\
  pagesReadInputChange "7" st = st.
Proof.
  cbn zeta. split; [reflexivity|]. split; [reflexivity|].
  apply (proj1 (zero_pages_rejects_positive
                  (bookItemClick Sample.pamphlet
                     (setApiBooks [Sample.pamphlet] initialState))
                  Sample.pamphlet eq_refl eq_refl)).
  reflexivity.
Defined.

(** *** The save transaction *)

Lemma progress_update_iff_witness :
  let net := Sample.netBy Sample.accepted Sample.accepted
               (Sample.books [Sample.dune120; Sample.foundation]) in
  selectedBook Sample.editing = Some Sample.dune /\
  In (pagesReadRequest None 1 120)
     (sent (world (save None Sample.record net Sample.editing []))).
Proof.
  cbn zeta. split; [reflexivity|].
  destruct (progress_update_iff None Sample.Journal Sample.record
              (Sample.netBy Sample.accepted Sample.accepted
                 (Sample.books [Sample.dune120; Sample.foundation]))
              Sample.editing [] Sample.dune eq_refl) as [_ [H _]].
  apply H. simpl. discriminate.
Defined.

Lemma review_request_rule_witness :
  let net := Sample.netBy Sample.accepted Sample.accepted
               (Sample.books [Sample.dune120; Sample.foundation]) in
  selectedBook Sample.editing = Some Sample.dune /\
  1 <= rating Sample.editing <= 5 /\
  filter (hasMethod POST)
         (sent (world (save None Sample.record net Sample.editing []))) =
  [reviewRequest None 1 3].
Proof.
  cbn zeta. split; [reflexivity|]. split; [simpl; lia|].
  destruct (review_request_rule None Sample.Journal Sample.record
              (Sample.netBy Sample.accepted Sample.accepted
                 (Sample.books [Sample.dune120; Sample.foundation]))
              Sample.editing [] Sample.dune eq_refl) as [_ [_ [H _]]].
  apply H; [simpl; lia | intros _; reflexivity].
Defined.

(** C5 as stated fails when the network rejects the progress update: the
    rating is 3, and the save issues no add-review request. *)
Lemma review_skipped_counterexample :
  let net := Sample.netBy Rejected Sample.accepted
               (Sample.books [Sample.dune120; Sample.foundation]) in
  let log := sent (world (save None Sample.record net Sample.editing [])) in
  selectedBook Sample.editing = Some Sample.dune /\
  1 <= rating Sample.editing <= 5 /\
  log = [pagesReadRequest None 1 120] /\
  List.length (filter (hasMethod POST) log) <> 1%nat.
Proof.
  cbn zeta. split; [reflexivity|]. split; [simpl; lia|].
  split; [reflexivity | discriminate].
Qed.

Lemma write_failure_outcome_witness :
  let net := Sample.netBy Sample.serverError Sample.accepted
               (Sample.books Sample.catalog) in
  let m := save None Sample.record net Sample.editing [] in
  selectedBook Sample.editing = Some Sample.dune /\
  isAccepted (net (pagesReadRequest None 1 120)) = false /\
  remote (world m) = [reviewRequest None 1 3] /\
  In (booksRequest None) (sent (world m)) /\
  selectedBook (ui m) = None.
Proof.
  cbn zeta. split; [reflexivity|]. split; [reflexivity|].
  split; [reflexivity|].
  destruct (write_failure_outcome None Sample.Journal Sample.record
              (Sample.netBy Sample.serverError Sample.accepted
                 (Sample.books Sample.catalog))
              Sample.editing [] Sample.dune eq_refl) as [_ [_ [H _]]].
  apply H. intros r Hr _. simpl in Hr.
  destruct Hr as [<- | [<- | [<- | []]]]; reflexivity.
Defined.

(** C2 as stated fails when the network rejects the progress update: the
    request has failed, and after the save the session is still open on
    Dune with both drafts as they were. *)
Lemma save_rejected_stays_open_counterexample :
  let net := Sample.netBy Rejected Sample.accepted
               (Sample.books Sample.catalog) in
  let m := save None Sample.record net Sample.editing [] in
  In (pagesReadRequest None 1 120) (sent (world m)) /\
  net (pagesReadRequest None 1 120) = Rejected /\
  remote (world m) = [] /\
  selectedBook (ui m) = Some Sample.dune /\
  pagesRead (ui m) = 120 /\ rating (ui m) = 3 /\
  selectedBook (ui m) <> None.
Proof.
  cbn zeta. split; [simpl; auto|]. repeat split. discriminate.
Qed.

Lemma refresh_failure_keeps_catalog_witness :
  let net := Sample.netBy Sample.accepted Sample.accepted Rejected in
  let m := save None Sample.record net Sample.editing [] in
  RefreshFailure (net (booksRequest None)) /\
  apiBooks (ui m) = apiBooks Sample.editing /\
  selectedBook (ui m) = None.
Proof.
  cbn zeta.
  assert (F : RefreshFailure
                (Sample.netBy Sample.accepted Sample.accepted Rejected
                   (booksRequest None))) by constructor.
  split; [exact F|].
  apply (proj2 (refresh_failure_keeps_catalog None Sample.Journal Sample.record
                  (Sample.netBy Sample.accepted Sample.accepted Rejected) F)
               Sample.editing [] Sample.dune eq_refl).
  simpl. auto.
Defined.

Lemma save_reconciles_draft_witness :
  let net := Sample.netBy Sample.serverError Sample.accepted
               (Sample.books Sample.catalog) in
  let m := save None Sample.record net Sample.editing [] in
  pagesRead Sample.editing = 120 /\
  findBook 1 Sample.catalog = Some Sample.dune /\
  pagesRead (ui m) = 50.
Proof.
  cbn zeta. split; [reflexivity|]. split; [reflexivity|].
  assert (G : In (booksRequest None)
                (sent (world (save None Sample.record
                   (Sample.netBy Sample.serverError Sample.accepted
                      (Sample.books Sample.catalog))
                   Sample.editing [])))) by (simpl; auto).
  destruct (save_reconciles_draft None Sample.Journal Sample.record
              (Sample.netBy Sample.serverError Sample.accepted
                 (Sample.books Sample.catalog))
              Sample.editing [] Sample.dune Sample.catalog
              "2024-01-01T00:00:00Z" eq_refl G eq_refl) as [_ [_ [H _]]].
  exact (H Sample.dune eq_refl).
Defined.

(* ================================================================= *)
(** ** More on the filtered view *)

Lemma append_assoc (a b c : string) : (a ++ b) ++ c = a ++ b ++ c.
Proof.
  induction a as [|x a IH]; simpl; [reflexivity | now rewrite IH].
Qed.

Lemma filter_Subsequence {A : Type} (f : A -> bool) (l : list A) :
  Subsequence (filter f l) l.
Proof.
  induction l as [|x l IH]; simpl; [constructor|].
  destruct (f x); now constructor.
Qed.

Lemma Subsequence_incl {A : Type} (l l' : list A) :
  Subsequence l l' -> incl l l'.
Proof.
  induction 1 as [|x l l' _ IH|x l l' _ IH]; intros y Hy.
  - exact Hy.
  - right. now apply IH.
  - destruct Hy as [-> | Hy]; [now left | right; now apply IH].
Qed.

Lemma matchesSearch_narrow (pre q post : string) (B : ApiBook.t) :
  matchesSearch (pre ++ q ++ post) B = true -> matchesSearch q B = true.
Proof.
  unfold matchesSearch. rewrite !orb_true_iff, !String.eqb_eq, !includes_spec.
  assert (G : forall s,
            (exists a b, s = a ++ Js.toLowerCase (pre ++ q ++ post) ++ b) ->
            exists a b, s = a ++ Js.toLowerCase q ++ b).
  { intros s [a [b ->]].
    exists (a ++ Js.toLowerCase pre), (Js.toLowerCase post ++ b).
    now rewrite !toLowerCase_app, !append_assoc. }
  intros [[H | H] | H].
  - left; left. destruct pre; [|discriminate]. destruct q; [reflexivity | discriminate].
  - left; right. now apply G.
  - right. now apply G.
Qed.

Lemma matchesSearch_ignoring_case (q q' : string) (B : ApiBook.t) :
  equalIgnoringCase q q' -> matchesSearch q B = matchesSearch q' B.
Proof.
  intros H. unfold matchesSearch.
  rewrite (proj1 (equalIgnoringCase_iff q q') H).
  now destruct H.
Qed.

Section MoreFilterProperties.

Variable readingStatuses : list ReadingStatus.t.

(** The callback reads the query only through the search test. *)
Lemma filterCallback_query (q q' : string) (st : State) (B : ApiBook.t) :
  (matchesSearch q B = true -> matchesSearch q' B = true) ->
  filterCallback readingStatuses (setSearchQuery q st) B = true ->
  filterCallback readingStatuses (setSearchQuery q' st) B = true.
Proof.
  unfold filterCallback. simpl. intros H.
  destruct (isStatus (activeFilter st) && Js.truthyOpt (selectedStatus st)).
  - destruct (selectedStatus st) as [v|]; [|easy].
    destruct (findStatus readingStatuses v); [|easy].
    rewrite !andb_true_iff. intuition.
  - destruct (isCategory (activeFilter st) && Js.truthyOpt (selectedCategory st)).
    + destruct (selectedCategory st) as [v|]; [|easy].
      rewrite !andb_true_iff. intuition.
    + exact H.
Qed.

(** Every listed book passes the search test, whatever the tab. *)
Lemma filterCallback_matches (st : State) (B : ApiBook.t) :
  filterCallback readingStatuses st B = true ->
  matchesSearch (searchQuery st) B = true.
Proof.
  unfold filterCallback.
  destruct (isStatus (activeFilter st) && Js.truthyOpt (selectedStatus st)).
  - destruct (selectedStatus st) as [v|]; [|easy].
    destruct (findStatus readingStatuses v); [|easy].
    rewrite andb_true_iff. tauto.
  - destruct (isCategory (activeFilter st) && Js.truthyOpt (selectedCategory st)).
    + destruct (selectedCategory st) as [v|]; [|easy].
      rewrite andb_true_iff. tauto.
    + easy.
Qed.

(** X1. The listed books are books of the Catalog, in the order they have
    in the Catalog, and each of them passes the search test whatever the
    tab and the selection. *)
Theorem filtered_is_subsequence (st : State) :
  Subsequence (filteredApiBooks readingStatuses st) (apiBooks st) /\
  Forall (fun B => matchesSearch (searchQuery st) B = true)
         (filteredApiBooks readingStatuses st).
Proof.
  rewrite filteredApiBooks_filter. split; [apply filter_Subsequence|].
  apply Forall_forall. intros B HB. apply filter_In in HB as [_ HB].
  now apply filterCallback_matches.
Qed.

(** X2. Under the Category tab, with a selected category that is neither
    absent nor the empty string, a book of the Catalog is listed exactly
    when it passes the search test and its category is the selected one,
    letter for letter; with no selection, or the empty string selected, it
    is listed exactly when it passes the search test. *)
Theorem category_filter_iff (st : State) (B : ApiBook.t) :
  activeFilter st = FilterCategory ->
  In B (apiBooks st) ->
  (forall c, selectedCategory st = Some c -> c <> "" ->
     (In B (filteredApiBooks readingStatuses st) <->
      matchesSearch (searchQuery st) B = true /\ ApiBook.category B = c)) /\
  (selectedCategory st = None \/ selectedCategory st = Some "" ->
     (In B (filteredApiBooks readingStatuses st) <->
      matchesSearch (searchQuery st) B = true)).
Proof.
  intros Hmode HB. split.
  - intros c Hc Hne. rewrite In_filteredApiBooks.
    unfold filterCallback. rewrite Hmode, Hc. simpl.
    unfold Js.truthy. apply String.eqb_neq in Hne. rewrite Hne. simpl.
    rewrite andb_true_iff, String.eqb_eq. tauto.
  - intros Hsel. rewrite In_filteredApiBooks.
    rewrite filterCallback_unconstrained; [tauto | | ].
    + rewrite Hmode. reflexivity.
    + destruct Hsel as [-> | ->]; rewrite Hmode; reflexivity.
Qed.

(** X3. For text of the Latin-1 range, typing more into the search box
    never adds a book to the list: the books listed for a query are among
    the books listed for any stretch of that query, the tab and the
    selection being the same. *)
Theorem longer_query_narrows (pre q post : string) (st : State) :
  incl (filteredApiBooks readingStatuses (searchInputChange (pre ++ q ++ post) st))
       (filteredApiBooks readingStatuses (searchInputChange q st)).
Proof.
  intros B. rewrite !In_filteredApiBooks. simpl. intros [HB Hc]. split; [exact HB|].
  revert Hc. apply filterCallback_query. apply matchesSearch_narrow.
Qed.

(** X4. For text of the Latin-1 range, the list does not depend on the
    letter case of the query: two queries that are equal up to case list
    the same books. *)
Theorem search_ignores_query_case (q q' : string) (st : State) :
  equalIgnoringCase q q' ->
  filteredApiBooks readingStatuses (searchInputChange q st) =
  filteredApiBooks readingStatuses (searchInputChange q' st).
Proof.
  intros H. rewrite !filteredApiBooks_filter. unfold searchInputChange.
  change (apiBooks (setSearchQuery q st)) with (apiBooks st).
  change (apiBooks (setSearchQuery q' st)) with (apiBooks st).
  apply filter_ext. intros B.
  pose proof (matchesSearch_ignoring_case q q' B H) as E.
  destruct (filterCallback readingStatuses (setSearchQuery q st) B) eqn:E1,
           (filterCallback readingStatuses (setSearchQuery q' st) B) eqn:E2;
    try reflexivity.
  - assert (X : filterCallback readingStatuses (setSearchQuery q' st) B = true)
      by (apply (filterCallback_query q q' st B); [now rewrite E | exact E1]).
    congruence.
  - assert (X : filterCallback readingStatuses (setSearchQuery q st) B = true)
      by (apply (filterCallback_query q' q st B); [now rewrite E | exact E2]).
    congruence.
Qed.

End MoreFilterProperties.

(* ================================================================= *)
(** ** The category badges *)

(** The order of [sort]: code unit by code unit, a proper prefix first. *)
Definition codeUnitLe (a b : string) : Prop := a = b \/ String_as_OT.lt a b.

Lemma leb_codeUnitLe (a b : string) :
  (a <=? b)%string = true <-> codeUnitLe a b.
Proof.
  unfold String.leb, codeUnitLe.
  destruct (a ?= b)%string eqn:E.
  - apply String_as_OT.cmp_eq in E. tauto.
  - apply String_as_OT.cmp_lt in E. tauto.
  - split; [discriminate|]. intros [H | H].
    + apply String_as_OT.cmp_eq in H. unfold String_as_OT.cmp in H. congruence.
    + apply String_as_OT.cmp_lt in H. unfold String_as_OT.cmp in H. congruence.
Qed.

Lemma leb_false_lt (a b : string) :
  (a <=? b)%string = false -> String_as_OT.lt b a.
Proof.
  unfold String.leb. intros H. apply String_as_OT.cmp_lt.
  unfold String_as_OT.cmp. rewrite String.compare_antisym.
  destruct (a ?= b)%string; try discriminate. reflexivity.
Qed.

Lemma codeUnitLe_trans (a b c : string) :
  codeUnitLe a b -> codeUnitLe b c -> codeUnitLe a c.
Proof.
  intros [-> | H1] [-> | H2]; unfold codeUnitLe; auto.
  right. exact (String_as_OT.lt_trans _ _ _ H1 H2).
Qed.

Lemma codeUnitLe_antisym (a b : string) :
  codeUnitLe a b -> codeUnitLe b a -> a = b.
Proof.
  intros [-> | H1] [E | H2]; auto.
  exfalso. apply (String_as_OT.lt_not_eq a a); [|reflexivity].
  exact (String_as_OT.lt_trans _ _ _ H1 H2).
Qed.

Lemma insertSorted_Permutation (x : string) (l : list string) :
  Permutation (insertSorted x l) (x :: l).
Proof.
  induction l as [|y l IH]; simpl; [reflexivity|].
  destruct (x <=? y)%string; [reflexivity|].
  rewrite IH. apply perm_swap.
Qed.

Lemma insertSorted_sorted (x : string) (l : list string) :
  StronglySorted codeUnitLe l -> StronglySorted codeUnitLe (insertSorted x l).
Proof.
  induction 1 as [|y l Hs IH Hy]; simpl.
  - repeat constructor.
  - destruct (x <=? y)%string eqn:E.
    + apply leb_codeUnitLe in E. constructor; [now constructor|].
      constructor; [exact E|].
      apply Forall_impl with (P := codeUnitLe y); [|exact Hy].
      intros z Hz. exact (codeUnitLe_trans _ _ _ E Hz).
    + apply leb_false_lt in E. constructor; [exact IH|].
      apply Forall_forall. intros z Hz.
      apply (Permutation_in _ (insertSorted_Permutation x l)) in Hz.
      destruct Hz as [<- | Hz]; [now right|].
      exact (proj1 (Forall_forall _ _) Hy z Hz).
Qed.

Lemma sortStrings_Permutation (l : list string) : Permutation (sortStrings l) l.
Proof.
  induction l as [|x l IH]; simpl; [reflexivity|].
  rewrite insertSorted_Permutation. now constructor.
Qed.

Lemma sortStrings_sorted (l : list string) :
  StronglySorted codeUnitLe (sortStrings l).
Proof.
  induction l as [|x l IH]; simpl; [constructor | now apply insertSorted_sorted].
Qed.

(** A list has one sorted arrangement: whatever algorithm [sort] runs, it
    returns the list that [sortStrings] returns. *)
Lemma sorted_permutation_unique (l1 l2 : list string) :
  StronglySorted codeUnitLe l1 -> StronglySorted codeUnitLe l2 ->
  Permutation l1 l2 -> l1 = l2.
Proof.
  intros H1. revert l2. induction H1 as [|a l1 Hs IH Ha]; intros l2 H2 P.
  - apply Permutation_nil in P. now subst.
  - destruct H2 as [|b l2 Hs2 Hb].
    + symmetry in P. apply Permutation_nil in P. discriminate.
    + assert (E : a = b).
      { apply codeUnitLe_antisym.
        - assert (I : In b (a :: l1))
            by (apply (Permutation_in _ (Permutation_sym P)); now left).
          destruct I as [-> | I]; [now left|].
          exact (proj1 (Forall_forall _ _) Ha b I).
        - assert (I : In a (b :: l2)) by (apply (Permutation_in _ P); now left).
          destruct I as [-> | I]; [now left|].
          exact (proj1 (Forall_forall _ _) Hb a I). }
      subst b. f_equal. apply IH; [exact Hs2|].
      exact (Permutation_cons_inv P).
Qed.

Lemma existsb_eqb_In (x : string) (l : list string) :
  existsb (String.eqb x) l = true <-> In x l.
Proof.
  rewrite existsb_exists. split.
  - intros [y [Hy E]]. apply String.eqb_eq in E. now subst.
  - intros H. exists x. split; [exact H | apply String.eqb_refl].
Qed.

Lemma uniqueStrings_acc (xs seen : list string) :
  let r := fold_left
    (fun seen x => if existsb (String.eqb x) seen then seen else (seen ++ [x])%list)
    xs seen in
  (forall x, In x r <-> In x seen \/ In x xs) /\ (NoDup seen -> NoDup r).
Proof.
  revert seen. induction xs as [|y xs IH]; intros seen; simpl.
  - split; [intros x; tauto | auto].
  - destruct (existsb (String.eqb y) seen) eqn:E.
    + apply existsb_eqb_In in E. destruct (IH seen) as [I N]. split; [|exact N].
      intros x. rewrite I. split; [tauto|].
      intros [H | [<- | H]]; auto.
    + assert (E' : ~ In y seen)
        by (intros H; apply existsb_eqb_In in H; congruence).
      destruct (IH (seen ++ [y])%list) as [I N]. split.
      * intros x. rewrite I, in_app_iff. simpl. tauto.
      * intros Hn. apply N. apply NoDup_app; [exact Hn | repeat constructor; easy |].
        intros x Hx [<- | []]. contradiction.
Qed.

Lemma uniqueStrings_In (xs : list string) (x : string) :
  In x (uniqueStrings xs) <-> In x xs.
Proof.
  unfold uniqueStrings. destruct (uniqueStrings_acc xs []) as [I _].
  rewrite I. simpl. tauto.
Qed.

Lemma uniqueStrings_NoDup (xs : list string) : NoDup (uniqueStrings xs).
Proof.
  unfold uniqueStrings. destruct (uniqueStrings_acc xs []) as [_ N].
  apply N. constructor.
Qed.

Lemma apiCategories_eq (st : State) :
  apiCategories st =
  sortStrings (uniqueStrings (map ApiBook.category (apiBooks st))).
Proof.
  unfold apiCategories. destruct (apiBooks st); reflexivity.
Qed.

Lemma apiCategories_NoDup (st : State) : NoDup (apiCategories st).
Proof.
  rewrite apiCategories_eq.
  apply (Permutation_NoDup (Permutation_sym (sortStrings_Permutation _))).
  apply uniqueStrings_NoDup.
Qed.

Lemma apiCategories_In (st : State) (c : string) :
  In c (apiCategories st) <-> In c (map ApiBook.category (apiBooks st)).
Proof.
  rewrite apiCategories_eq. split; intros H.
  - apply uniqueStrings_In.
    exact (Permutation_in _ (sortStrings_Permutation _) H).
  - apply uniqueStrings_In in H.
    exact (Permutation_in _ (Permutation_sym (sortStrings_Permutation _)) H).
Qed.

(** X5. The category badges are exactly the categories that occur in the
    Catalog: a category has a badge if and only if some book of the
    Catalog has it. *)
Theorem apiCategories_membership (st : State) (c : string) :
  In c (apiCategories st) <->
  exists B, In B (apiBooks st) /\ ApiBook.category B = c.
Proof.
  rewrite apiCategories_In, in_map_iff. split.
  - intros [B [E HB]]. now exists B.
  - intros [B [HB E]]. now exists B.
Qed.

(** X6. The category badges come in strictly ascending order of their code
    units, so no category has two badges. *)
Theorem apiCategories_sorted (st : State) :
  StronglySorted String_as_OT.lt (apiCategories st) /\ NoDup (apiCategories st).
Proof.
  split; [|apply apiCategories_NoDup].
  pose proof (apiCategories_NoDup st) as N.
  assert (S : StronglySorted codeUnitLe (apiCategories st))
    by (rewrite apiCategories_eq; apply sortStrings_sorted).
  induction S as [|a l Hs IH Ha]; constructor.
  - apply IH. now inversion N.
  - inversion N as [|? ? Hn _]; subst.
    apply Forall_forall. intros z Hz.
    destruct (proj1 (Forall_forall _ _) Ha z Hz) as [-> | H]; [contradiction | exact H].
Qed.

(** X7. The row of category badges depends only on which categories occur
    in the Catalog, not on the order of the books nor on how many books a
    category has. *)
Theorem apiCategories_depends_on_set (st1 st2 : State) :
  (forall c, In c (map ApiBook.category (apiBooks st1)) <->
             In c (map ApiBook.category (apiBooks st2))) ->
  apiCategories st1 = apiCategories st2.
Proof.
  intros H. apply sorted_permutation_unique.
  - rewrite apiCategories_eq. apply sortStrings_sorted.
  - rewrite apiCategories_eq. apply sortStrings_sorted.
  - apply NoDup_Permutation; try apply apiCategories_NoDup.
    intros c. now rewrite !apiCategories_In.
Qed.

Lemma filter_selected_NoDup (sel : string) (l : list string) :
  NoDup l ->
  (List.length (filter (fun c => (sel =? c)%string) l) <= 1)%nat.
Proof.
  induction 1 as [|x l Hx Hn IH]; simpl; [lia|].
  destruct (sel =? x)%string eqn:E; [|exact IH].
  apply String.eqb_eq in E. subst x. simpl.
  assert (Z : filter (fun c => (sel =? c)%string) l = []).
  { clear IH Hn. induction l as [|y l IHl]; simpl; [reflexivity|].
    destruct (sel =? y)%string eqn:Ey.
    - apply String.eqb_eq in Ey. subst y. exfalso. apply Hx. now left.
    - apply IHl. intros H. apply Hx. now right. }
  rewrite Z. simpl. lia.
Qed.

(** X8. In the row of category badges at most one badge is drawn as
    selected, and one is exactly when the selected category is a category
    of the Catalog while the Category tab is active. *)
Theorem one_category_badge_selected (st : State) :
  let selected := filter badgeSelected (categoryBadges st) in
  (List.length selected <= 1)%nat /\
  (selected <> [] <->
   activeFilter st = FilterCategory /\
   exists c, selectedCategory st = Some c /\ In c (apiCategories st)).
Proof.
  cbn zeta. unfold categoryBadges.
  destruct (activeFilter st) eqn:Ea; simpl;
    try (split; [lia | split; [congruence | intros [H _]; discriminate]]).
  assert (Hlen : (0 <? List.length (apiBooks st))%nat = false ->
                 apiCategories st = []).
  { unfold apiCategories. destruct (apiBooks st); [reflexivity | discriminate]. }
  destruct (0 <? List.length (apiBooks st))%nat eqn:El.
  - clear Hlen. destruct (selectedCategory st) as [sel|] eqn:Es.
    + assert (F : filter badgeSelected
                    (map (fun category => mkBadge category (sel =? category)%string)
                         (apiCategories st)) =
                  map (fun category => mkBadge category (sel =? category)%string)
                      (filter (fun c => (sel =? c)%string) (apiCategories st))).
      { induction (apiCategories st) as [|x l IH]; simpl; [reflexivity|].
        destruct (sel =? x)%string eqn:Ex; simpl; rewrite ?Ex, IH; reflexivity. }
      rewrite F, length_map. split.
      * apply filter_selected_NoDup, apiCategories_NoDup.
      * split.
        -- intros H. split; [reflexivity|]. exists sel. split; [reflexivity|].
           destruct (filter (fun c => (sel =? c)%string) (apiCategories st))
             as [|x l] eqn:Ef; [now destruct H|].
           assert (I : In x (x :: l)) by now left.
           rewrite <- Ef in I. apply filter_In in I as [I E].
           apply String.eqb_eq in E. now subst.
        -- intros [_ [c [Hsel Hc]]] H. injection Hsel as <-.
           apply (f_equal (@List.length Badge)) in H. rewrite length_map in H.
           assert (I : In sel (filter (fun c => (sel =? c)%string) (apiCategories st)))
             by (apply filter_In; split; [exact Hc | apply String.eqb_refl]).
           destruct (filter (fun c => (sel =? c)%string) (apiCategories st));
             [destruct I | discriminate].
    + assert (F : filter badgeSelected
                    (map (fun category => mkBadge category false)
                         (apiCategories st)) = []).
      { induction (apiCategories st) as [|x l IH]; simpl; [reflexivity | exact IH]. }
      rewrite F. simpl. split; [lia|].
      split; [congruence | intros [_ [c [H _]]]; discriminate].
  - rewrite (Hlen eq_refl). simpl. split; [lia|].
    split; [congruence | intros [_ [c [_ []]]]].
Qed.

Section BadgeProperties.

Variable readingStatuses : list ReadingStatus.t.

(** X9. Choosing the Category tab and then the badge of a category with a
    non-empty name lists the books of that category that pass the search
    test, and with an empty search box that list is not empty: a category
    badge never leads to an empty list on its own. *)
Theorem category_badge_lists_its_books (c : string) (st : State) :
  In c (apiCategories st) ->
  c <> "" ->
  let st' := categoryBadgeClick c (handleFilterChange FilterCategory st) in
  filteredApiBooks readingStatuses st' =
    filter (fun B => matchesSearch (searchQuery st) B
                     && (ApiBook.category B =? c)%string) (apiBooks st) /\
  (searchQuery st = "" -> filteredApiBooks readingStatuses st' <> []).
Proof.
  intros Hc Hne. cbn zeta.
  assert (E : filteredApiBooks readingStatuses
                (categoryBadgeClick c (handleFilterChange FilterCategory st)) =
              filter (fun B => matchesSearch (searchQuery st) B
                               && (ApiBook.category B =? c)%string) (apiBooks st)).
  { rewrite filteredApiBooks_filter. simpl. apply filter_ext. intros B.
    unfold filterCallback. simpl. unfold Js.truthy.
    apply String.eqb_neq in Hne. now rewrite Hne. }
  split; [exact E|].
  intros Hq. rewrite E.
  apply apiCategories_In, in_map_iff in Hc as [B [HB HI]].
  assert (I : In B (filter (fun B => matchesSearch (searchQuery st) B
                               && (ApiBook.category B =? c)%string) (apiBooks st))).
  { apply filter_In. split; [exact HI|].
    unfold matchesSearch. rewrite Hq, HB. simpl. apply String.eqb_refl. }
  intros Z. rewrite Z in I. destruct I.
Qed.

(** X10. After a tab has been chosen, a second click on the same status
    badge, or on the same category badge, undoes the first: the state is
    again the one the tab change left. *)
Theorem badge_click_twice (m : FilterType) (id : string) (st : State) :
  let cleared := handleFilterChange m st in
  statusBadgeClick id (statusBadgeClick id cleared) = cleared /\
  categoryBadgeClick id (categoryBadgeClick id cleared) = cleared.
Proof.
  cbn zeta. unfold statusBadgeClick, categoryBadgeClick. simpl.
  rewrite String.eqb_refl. split; reflexivity.
Qed.

Lemma filter_nil_iff {A : Type} (f : A -> bool) (l : list A) :
  filter f l = [] <-> forall x, In x l -> f x = false.
Proof.
  induction l as [|y l IH]; simpl.
  - split; [intros _ x [] | reflexivity].
  - destruct (f y) eqn:E.
    + split; [discriminate|]. intros H. specialize (H y (or_introl eq_refl)). congruence.
    + rewrite IH. split.
      * intros H x [<- | Hx]; auto.
      * intros H x Hx. apply H. now right.
Qed.

(** X11. The list area shows one of three things.  It says that the
    library is empty, and offers to add a first book, exactly when the
    Catalog is empty; it says that no books were found, without that offer,
    exactly when the Catalog has books and none passes the filter; and it
    shows the listed books exactly when there is one. *)
Theorem list_area_cases (st : State) :
  (listArea readingStatuses st =
     EmptyState "Your library is empty" "Add your first book to get started" true
   <-> apiBooks st = []) /\
  (listArea readingStatuses st =
     EmptyState "No books found" "Try adjusting your search or filters" false
   <-> apiBooks st <> [] /\
       forall B, In B (apiBooks st) -> filterCallback readingStatuses st B = false) /\
  (forall items,
     listArea readingStatuses st = BookList items <->
     items = filteredApiBooks readingStatuses st /\ items <> []).
Proof.
  unfold listArea. rewrite filteredApiBooks_filter.
  pose proof (filter_nil_iff (filterCallback readingStatuses st) (apiBooks st)) as N.
  destruct (apiBooks st) as [|b bs] eqn:Eb.
  - simpl. split; [|split].
    + split; reflexivity.
    + split; [discriminate | intros [H _]; now destruct H].
    + intros items. split; [discriminate | intros [-> H]; now destruct H].
  - destruct (filter (filterCallback readingStatuses st) (b :: bs)) as [|x xs] eqn:Ef.
    + simpl. split; [|split].
      * split; discriminate.
      * split; [|reflexivity].
        intros _. split; [discriminate | now apply N].
      * intros items. split; [discriminate | intros [-> H]; now destruct H].
    + simpl. split; [|split].
      * split; discriminate.
      * split; [discriminate | intros [_ H]; apply N in H; discriminate].
      * intros items. split.
        -- intros H. injection H as <-. split; [reflexivity | discriminate].
        -- intros [-> _]. reflexivity.
Qed.

End BadgeProperties.

(* ================================================================= *)
(** ** More on the dialog *)

(** Reads one decimal digit off the front of the string being parsed. *)
Ltac read_digit :=
  lazymatch goal with
  | |- context [Js.parseDigits 10 (String ?c ?s) (Some ?a)] =>
      let k := eval vm_compute in (Z.of_N (N_of_ascii c) - 48) in
      change (Js.parseDigits 10 (String c s) (Some a))
        with (Js.parseDigits 10 s (Some (10 * a + k)))
  end.

Lemma parseDigits_acc_pos (d : Decimal.uint) (p : positive) :
  Js.parseDigits 10 (NilEmpty.string_of_uint d) (Some (Z.pos p)) =
  Some (Z.pos (Pos.of_uint_acc d p)).
Proof.
  revert p. induction d; intros p; [reflexivity|..];
    cbn [NilEmpty.string_of_uint Pos.of_uint_acc];
    rewrite <- IHd; read_digit; do 2 f_equal; lia.
Qed.

Lemma parseDigits_zero (d : Decimal.uint) :
  Js.parseDigits 10 (NilEmpty.string_of_uint d) (Some 0) =
  Some (Z.of_N (Pos.of_uint d)).
Proof.
  induction d; [reflexivity | exact IHd |..];
    cbn [NilEmpty.string_of_uint Pos.of_uint];
    apply (parseDigits_acc_pos d).
Qed.

Lemma parseInt_digits (d : Decimal.uint) :
  d <> Decimal.Nil ->
  Js.parseInt (NilEmpty.string_of_uint d) = Some (Z.of_N (Pos.of_uint d)) /\
  Js.parseInt (String "-" (NilEmpty.string_of_uint d)) =
  Some (- Z.of_N (Pos.of_uint d)).
Proof.
  intros Hd.
  assert (G : Js.parseDigits 10 (NilEmpty.string_of_uint d) None =
              Some (Z.of_N (Pos.of_uint d))).
  { rewrite <- parseDigits_zero. destruct d; [easy|..]; reflexivity. }
  revert G. generalize (Z.of_N (Pos.of_uint d)). intros n G.
  destruct d as [|d|d|d|d|d|d|d|d|d|d]; [easy|..]; try destruct d;
    unfold Js.parseInt;
    cbn [NilEmpty.string_of_uint Js.trimStart Js.stripSign
         Js.stripRadixPrefix] in *;
    change (Js.isWhiteSpace "-") with false;
    match goal with
    | |- context [Js.isWhiteSpace ?c] => change (Js.isWhiteSpace c) with false
    end; cbn [Js.stripSign Js.stripRadixPrefix]; rewrite G;
    split; f_equal; lia.
Qed.

Lemma parseInt_rendered (n : Z) : Js.parseInt (Js.numberToString n) = Some n.
Proof.
  unfold Js.numberToString. destruct n as [|p|p]; [reflexivity|..];
    cbn [Z.to_int NilZero.string_of_int];
    pose proof (Unsigned.to_uint_nonnil p) as Hp;
    destruct (parseInt_digits (Pos.to_uint p) Hp) as [H1 H2];
    rewrite Unsigned.of_to in H1, H2;
    (replace (NilZero.string_of_uint (Pos.to_uint p))
       with (NilEmpty.string_of_uint (Pos.to_uint p))
       by (destruct (Pos.to_uint p); [easy|..]; reflexivity));
    assumption.
Qed.

Lemma parseIntOrZero_rendered (n : Z) :
  Js.parseIntOrZero (Js.numberToString n) = n.
Proof.
  unfold Js.parseIntOrZero. rewrite parseInt_rendered. apply orZero_id.
Qed.

Lemma numberToString_injective (n m : Z) :
  Js.numberToString n = Js.numberToString m -> n = m.
Proof.
  intros H. apply (f_equal Js.parseInt) in H.
  rewrite !parseInt_rendered in H. now injection H.
Qed.

(** X12. For a safe integer, reading back its decimal rendering gives the
    integer: [parseInt] undoes the rendering of the number in a template
    literal or in the value of an input, for negative integers and 0 too;
    so two safe integers with the same rendering are equal. *)
Theorem parseInt_numberToString (n : Z) :
  isSafeInteger n = true ->
  Js.parseInt (Js.numberToString n) = Some n /\
  Js.parseIntOrZero (Js.numberToString n) = n /\
  (forall m, isSafeInteger m = true ->
             Js.numberToString n = Js.numberToString m -> n = m).
Proof.
  intros _. split; [apply parseInt_rendered|].
  split; [apply parseIntOrZero_rendered|].
  intros m _. apply numberToString_injective.
Qed.

(** X13. While a book is open, typing the decimal rendering of a safe
    integer that does not exceed the book's page count makes that integer
    the pages-read draft and changes nothing else. *)
Theorem typing_rendered_number_sets_draft (st : State) (book : ApiBook.t) (n : Z) :
  selectedBook st = Some book ->
  isSafeInteger n = true ->
  n <= ApiBook.pages book ->
  pagesReadInputChange (Js.numberToString n) st = setPagesRead n st.
Proof.
  intros Hb _ Hn.
  destruct (pagesReadInputChange_spec (Js.numberToString n) st book Hb) as [H _].
  rewrite parseIntOrZero_rendered in H. now apply H.
Qed.

Lemma setPagesRead_same (st : State) : setPagesRead (pagesRead st) st = st.
Proof. now destruct st. Qed.

(** An event of the dialog changes the drafts and nothing else. *)
Lemma dialogEvent_frame (e : DialogEvent) (st : State) :
  dialogEvent e st =
  setRating (rating (dialogEvent e st))
    (setPagesRead (pagesRead (dialogEvent e st)) st).
Proof.
  destruct e as [v|n]; simpl.
  - unfold pagesReadInputChange. destruct (selectedBook st) as [b|].
    + destruct (_ <=? _); now destruct st.
    + now destruct st.
  - now destruct st.
Qed.

Lemma dialogEvents_frame (es : list DialogEvent) (st : State) :
  dialogEvents es st =
  setRating (rating (dialogEvents es st))
    (setPagesRead (pagesRead (dialogEvents es st)) st).
Proof.
  unfold dialogEvents. revert st. induction es as [|e es IH]; intros st; simpl.
  - now destruct st.
  - rewrite IH at 1. rewrite (dialogEvent_frame e st) at 3. reflexivity.
Qed.

Lemma dialogEvent_bound (e : DialogEvent) (st : State) (book : ApiBook.t) :
  selectedBook st = Some book ->
  pagesRead st <= ApiBook.pages book ->
  pagesRead (dialogEvent e st) <= ApiBook.pages book.
Proof.
  intros Hb Hle. destruct e as [v|n]; simpl; [|exact Hle].
  unfold pagesReadInputChange. rewrite Hb.
  destruct (Js.parseIntOrZero v <=? ApiBook.pages book) eqn:E; [|exact Hle].
  simpl. now apply Z.leb_le.
Qed.

(** X14. If the [pagesRead] of a book does not exceed its page count, then
    after the book is opened no run of edits in the dialog, to the
    pages-read input or to the rating, brings the pages-read draft above
    the page count; the edits change the two drafts and nothing else. *)
Theorem edits_keep_draft_within_pages
    (book : ApiBook.t) (es : list DialogEvent) (st : State) :
  ApiBook.pagesRead book <= ApiBook.pages book ->
  let opened := bookItemClick book st in
  let st' := dialogEvents es opened in
  pagesRead st' <= ApiBook.pages book /\
  st' = setRating (rating st') (setPagesRead (pagesRead st') opened).
Proof.
  intros Hle. cbn zeta. split; [|apply dialogEvents_frame].
  assert (G : forall s, selectedBook s = Some book ->
                pagesRead s <= ApiBook.pages book ->
                pagesRead (dialogEvents es s) <= ApiBook.pages book).
  { unfold dialogEvents. induction es as [|e es IH]; intros s Hs Hb; simpl;
      [exact Hb|].
    apply IH.
    - rewrite (dialogEvent_frame e s). exact Hs.
    - now apply dialogEvent_bound. }
  apply G; [reflexivity | simpl; now rewrite orZero_id].
Qed.

(** X15. Dismissing the dialog discards the edits: opening a book, editing
    the drafts in any way, dismissing the dialog and opening the same book
    again gives the state that opening the book gave in the first place,
    and closing with [open = true] is no change at all. *)
Theorem dismiss_discards_edits
    (book : ApiBook.t) (es : list DialogEvent) (st : State) :
  let opened := bookItemClick book st in
  bookItemClick book (dialogOpenChange false (dialogEvents es opened)) = opened /\
  dialogOpenChange true (dialogEvents es opened) = dialogEvents es opened.
Proof.
  cbn zeta. split; [|reflexivity].
  rewrite (dialogEvents_frame es (bookItemClick book st)). reflexivity.
Qed.

Lemma digitValue_nonneg (r : Z) (c : ascii) (d : Z) :
  Js.digitValue r c = Some d -> 0 <= d.
Proof.
  unfold Js.digitValue.
  set (n := Z.of_N (N_of_ascii c)).
  destruct ((48 <=? n) && (n <=? 57)) eqn:E1.
  - apply andb_true_iff in E1 as [E1 _]. apply Z.leb_le in E1.
    destruct (n - 48 <? r); [|discriminate]. intros [= <-]. lia.
  - destruct ((97 <=? n) && (n <=? 102)) eqn:E2.
    + apply andb_true_iff in E2 as [E2 _]. apply Z.leb_le in E2.
      destruct (n - 87 <? r); [|discriminate]. intros [= <-]. lia.
    + destruct ((65 <=? n) && (n <=? 70)) eqn:E3; [|discriminate].
      apply andb_true_iff in E3 as [E3 _]. apply Z.leb_le in E3.
      destruct (n - 55 <? r); [|discriminate]. intros [= <-]. lia.
Qed.

Lemma parseDigits_nonneg (r : Z) (s : string) (acc : option Z) (n : Z) :
  0 <= r ->
  (forall a, acc = Some a -> 0 <= a) ->
  Js.parseDigits r s acc = Some n -> 0 <= n.
Proof.
  intros Hr. revert acc. induction s as [|c s IH]; intros acc Ha; simpl.
  - intros H. now apply Ha.
  - destruct (Js.digitValue r c) as [d|] eqn:E; [|intros H; now apply Ha].
    apply IH. intros a [= <-]. apply digitValue_nonneg in E.
    destruct acc as [a'|]; [specialize (Ha a' eq_refl); nia | lia].
Qed.

Lemma stripSign_cases (s : string) :
  (exists s', s = String "-" s') \/ fst (Js.stripSign s) = 1.
Proof.
  destruct s as [|c s]; [now right|].
  destruct c as [[] [] [] [] [] [] [] []]; try (right; reflexivity).
  left. now exists s.
Qed.

Lemma stripRadixPrefix_radix (s : string) : 0 <= fst (Js.stripRadixPrefix s).
Proof.
  destruct s as [|c s]; [simpl; lia|].
  destruct c as [[] [] [] [] [] [] [] []]; try (simpl; lia).
  destruct s as [|c s]; [simpl; lia|].
  destruct c as [[] [] [] [] [] [] [] []]; simpl; lia.
Qed.

(** X16. Only an explicit minus sign gives a negative value: when the
    text of the pages-read input, leading white space aside, does not start
    with [-], the value read from it is 0 or more. *)
Theorem no_minus_no_negative (s : string) :
  (forall s', Js.trimStart s <> String "-" s') ->
  0 <= Js.parseIntOrZero s.
Proof.
  intros H. unfold Js.parseIntOrZero, Js.parseInt.
  destruct (stripSign_cases (Js.trimStart s)) as [[s' E] | E];
    [now destruct (H s')|].
  destruct (Js.stripSign (Js.trimStart s)) as [sign s1]. simpl in E. subst sign.
  pose proof (stripRadixPrefix_radix s1) as Hr.
  destruct (Js.stripRadixPrefix s1) as [radix s2]. simpl in Hr.
  destruct (Js.parseDigits radix s2 None) as [n|] eqn:P; [|lia].
  apply parseDigits_nonneg in P; [|exact Hr | discriminate].
  rewrite orZero_id. lia.
Qed.

(* ================================================================= *)
(** ** More on the refresh and the save *)

Lemma append_inj_l (a x y : string) : a ++ x = a ++ y -> x = y.
Proof.
  induction a as [|c a IH]; simpl; [easy|]. intros H. injection H as H. now apply IH.
Qed.

Lemma length_append (x y : string) :
  String.length (x ++ y) = (String.length x + String.length y)%nat.
Proof.
  induction x as [|c x IH]; simpl; [reflexivity | now rewrite IH].
Qed.

Lemma append_inj_r (x y t : string) : x ++ t = y ++ t -> x = y.
Proof.
  revert y. induction x as [|c x IH]; intros [|d y] H; simpl in H.
  - reflexivity.
  - apply (f_equal String.length) in H. simpl in H. rewrite length_append in H. lia.
  - apply (f_equal String.length) in H. simpl in H. rewrite length_append in H. lia.
  - injection H as -> H. f_equal. now apply IH.
Qed.

Lemma rejected_not_accepted (o : FetchOutcome) :
  isRejected o = true -> isAccepted o = false.
Proof. now destruct o. Qed.

Section MoreSaveProperties.

Variable readingStatuses : list ReadingStatus.t.
Variable VITE_API_BASE_URL : option string.
Variable Store : Type.
Variable serve : Request -> Store -> Store.
Variable net : Request -> FetchOutcome.

Local Abbreviation put := (pagesReadRequest VITE_API_BASE_URL).
Local Abbreviation post := (reviewRequest VITE_API_BASE_URL).
Local Abbreviation get := (booksRequest VITE_API_BASE_URL).
Local Abbreviation runSave := (save VITE_API_BASE_URL serve net).
Local Abbreviation runRefresh := (refresh VITE_API_BASE_URL serve net).
Local Abbreviation changed st book :=
  (negb (pagesRead st =? ApiBook.pagesRead book)).
Local Abbreviation rated st := (0 <? rating st).
Local Abbreviation stopped st book :=
  (changed st book && isRejected (net (put (ApiBook.id book) (pagesRead st)))
   || rated st && isRejected (net (post (ApiBook.id book) (rating st)))).

(** The refresh is attempted exactly when no write request was rejected. *)
Lemma refresh_attempted_iff (st : State) (store : Store) (book : ApiBook.t) :
  selectedBook st = Some book ->
  In get (sent (world (runSave st store))) <-> stopped st book = false.
Proof.
  intros Hb. rewrite (save_log _ _ serve net st store book Hb). cbn zeta.
  destruct (requests_distinct VITE_API_BASE_URL (ApiBook.id book) (pagesRead st)
              (ApiBook.id book) (rating st)) as [D1 [D2 D3]].
  destruct (changed st book), (rated st),
    (isRejected (net (put (ApiBook.id book) (pagesRead st)))),
    (isRejected (net (post (ApiBook.id book) (rating st))));
    cbn [andb orb app]; simpl; intuition congruence.
Qed.

(** X17. [fetchBooks] never throws, whatever the answer to its request.
    It issues exactly one request, the [GET] for the books, changes nothing
    in the store, and of the React state touches the Catalog only. *)
Theorem fetchBooks_never_throws (m : Machine Store) :
  let r := fetchBooks VITE_API_BASE_URL serve net m in
  (exists books, fst r = Normal books) /\
  sent (world (snd r)) = (sent (world m) ++ [get])%list /\
  remote (world (snd r)) = remote (world m) /\
  ui (snd r) = setApiBooks (apiBooks (ui (snd r))) (ui m).
Proof.
  cbn zeta. rewrite fetchBooks_run. simpl. split; [eauto|].
  repeat split.
  destruct (fetchedBooks (net get)); [reflexivity|]. now destruct (ui m).
Qed.

(** X18. A refresh that succeeds replaces the Catalog by the fetched books
    and leaves the rest of the React state alone: the book held by an open
    dialog and its drafts stay as they were, whatever record the new
    Catalog has for that book.  After the first fetch the list area shows
    all the fetched books. *)
Theorem refresh_replaces_catalog
    (data : list ApiBook.t) (ts : string) (st : State) (store : Store) :
  net get = Responded (mkResponse true
              (Some (BooksResponse.mk true (Some data) ts))) ->
  ui (runRefresh st store) = setApiBooks data st /\
  filteredApiBooks readingStatuses (ui (runRefresh initialState store)) = data.
Proof.
  intros Hn.
  assert (E : forall s, ui (runRefresh s store) = setApiBooks data s).
  { intros s. unfold refresh. rewrite fetchBooks_run, Hn. reflexivity. }
  split; [apply E|]. rewrite E, filteredApiBooks_filter.
  change (apiBooks (setApiBooks data initialState)) with data.
  set (f := filterCallback readingStatuses (setApiBooks data initialState)).
  assert (T : forall B, f B = true) by reflexivity.
  clearbody f. clear E Hn.
  induction data as [|b data IH]; simpl; [reflexivity | now rewrite T, IH].
Qed.

(** X19. Saving with nothing edited sends no write request: when the
    pages-read draft is the [pagesRead] of the book the dialog holds and the
    rating is 0, as they are right after the book is opened, the save
    issues the refresh request only, leaves the store as it is and closes
    the session. *)
Theorem unedited_save_only_refreshes (st : State) (store : Store) (book : ApiBook.t) :
  selectedBook st = Some book ->
  pagesRead st = ApiBook.pagesRead book ->
  rating st = 0 ->
  sent (world (runSave st store)) = [get] /\
  remote (world (runSave st store)) = store /\
  selectedBook (ui (runSave st store)) = None.
Proof.
  intros Hb Hp Hr.
  rewrite (save_remote _ _ serve net st store book Hb).
  rewrite (save_log _ _ serve net st store book Hb),
          (save_ui _ _ serve net st store book Hb).
  cbn zeta. rewrite Hp, Hr, Z.eqb_refl. simpl.
  repeat split.
  destruct (fetchedBooks (net get)) as [books|];
    [destruct (findBook (ApiBook.id book) books)|]; reflexivity.
Qed.

(** X20. A save issues at most three requests, at most one per method and
    always in the order [PUT], [POST], [GET]; each of them is the
    progress update or the review for the open book, or the refresh.  With
    no book open the handler does nothing at all. *)
Theorem save_request_discipline (st : State) (store : Store) :
  Subsequence (map method (sent (world (runSave st store)))) [PUT; POST; GET] /\
  (selectedBook st = None -> runSave st store = start st store) /\
  (forall book r,
     selectedBook st = Some book ->
     In r (sent (world (runSave st store))) ->
     r = put (ApiBook.id book) (pagesRead st) \/
     r = post (ApiBook.id book) (rating st) \/
     r = get).
Proof.
  destruct (selectedBook st) as [book|] eqn:Hb.
  - rewrite (save_log _ _ serve net st store book Hb). cbn zeta.
    split; [|split; [discriminate|]].
    + destruct (changed st book), (rated st),
        (isRejected (net (put (ApiBook.id book) (pagesRead st)))),
        (isRejected (net (post (ApiBook.id book) (rating st))));
        cbn [andb app map]; simpl;
        eauto 8 using @sub_nil, @sub_skip, @sub_keep.
    + intros b r [= <-].
      destruct (changed st book), (rated st),
        (isRejected (net (put (ApiBook.id book) (pagesRead st)))),
        (isRejected (net (post (ApiBook.id book) (rating st))));
        cbn [andb app]; simpl; intuition.
  - assert (E : runSave st store = start st store)
      by (unfold save, saveButtonClick; rewrite Hb; reflexivity).
    rewrite E. simpl. split; [|split; [reflexivity | discriminate]].
    eauto 8 using @sub_nil, @sub_skip, @sub_keep.
Qed.

(** X21. The store after a save: the progress update is applied first, if
    it went out and was answered with a 2xx status; the review is applied
    after it, if it went out and was answered with a 2xx status, and it
    does not go out when the progress update was rejected.  Nothing else
    reaches the store. *)
Theorem save_store_effect (st : State) (store : Store) (book : ApiBook.t) :
  selectedBook st = Some book ->
  let putR := put (ApiBook.id book) (pagesRead st) in
  let postR := post (ApiBook.id book) (rating st) in
  let afterPut :=
    if changed st book && isAccepted (net putR) then serve putR store else store in
  remote (world (runSave st store)) =
  if negb (changed st book && isRejected (net putR))
     && rated st && isAccepted (net postR)
  then serve postR afterPut else afterPut.
Proof.
  intros Hb. cbn zeta.
  rewrite (save_remote _ _ serve net st store book Hb),
          (save_log _ _ serve net st store book Hb).
  cbn zeta. unfold applyAccepted.
  pose proof (rejected_not_accepted (net (put (ApiBook.id book) (pagesRead st)))) as R1.
  pose proof (rejected_not_accepted (net (post (ApiBook.id book) (rating st)))) as R2.
  destruct (changed st book), (rated st),
    (isRejected (net (put (ApiBook.id book) (pagesRead st)))),
    (isRejected (net (post (ApiBook.id book) (rating st))));
    cbn [andb orb negb app fold_left]; unfold deliver; cbn [method pagesReadRequest reviewRequest booksRequest];
    rewrite ?(R1 eq_refl), ?(R2 eq_refl); cbn [andb orb negb];
    try reflexivity;
    destruct (isAccepted (net (put (ApiBook.id book) (pagesRead st))));
    reflexivity.
Qed.

(** X22. A save never touches the search text, the tab, the selected
    status, the selected category or the rating draft, whether a book is
    open or not and whatever the network answers. *)
Theorem save_frame (st : State) (store : Store) :
  let st' := ui (runSave st store) in
  searchQuery st' = searchQuery st /\
  activeFilter st' = activeFilter st /\
  selectedStatus st' = selectedStatus st /\
  selectedCategory st' = selectedCategory st /\
  rating st' = rating st.
Proof.
  cbn zeta. destruct (selectedBook st) as [book|] eqn:Hb.
  - rewrite (save_ui _ _ serve net st store book Hb).
    destruct (stopped st book); [now repeat split|].
    destruct (fetchedBooks (net get)) as [books|];
      [destruct (findBook (ApiBook.id book) books)|]; now repeat split.
  - unfold save, saveButtonClick. rewrite Hb. now repeat split.
Qed.

(** X23. What a save writes to the console: the message for a failed save
    exactly when the network rejected one of its write requests, the
    message for a failed fetch exactly when the refresh was attempted and
    was rejected or answered 2xx with a payload that does not parse, and
    never more than one message.  An answer with a non-2xx status is not
    reported. *)
Theorem save_console_messages (st : State) (store : Store) (book : ApiBook.t) :
  selectedBook st = Some book ->
  let m := runSave st store in
  (In "Error saving book data:" (console (world m)) <->
   exists r, In r (sent (world m)) /\ method r <> GET /\ isRejected (net r) = true) /\
  (In "Error fetching books:" (console (world m)) <->
   In get (sent (world m)) /\
   (net get = Rejected \/ net get = Responded (mkResponse true None))) /\
  (List.length (console (world m)) <= 1)%nat.
Proof.
  intros Hb. cbn zeta.
  pose proof (refresh_attempted_iff st store book Hb) as A.
  rewrite (save_console _ _ serve net st store book Hb).
  assert (W : (exists r, In r (sent (world (runSave st store))) /\
                         method r <> GET /\ isRejected (net r) = true) <->
              stopped st book = true).
  { rewrite (save_log _ _ serve net st store book Hb). cbn zeta.
    assert (M3 : method get = GET) by reflexivity.
    destruct (changed st book), (rated st),
      (isRejected (net (put (ApiBook.id book) (pagesRead st)))) eqn:E1,
      (isRejected (net (post (ApiBook.id book) (rating st)))) eqn:E2;
      cbn [andb orb app]; split;
      try (intros _; reflexivity);
      try (intros [r [I [Hm Hr]]]; simpl in I;
           repeat (destruct I as [<- | I]; [congruence|]); now destruct I);
      try discriminate;
      intros _;
      first [ exists (put (ApiBook.id book) (pagesRead st));
              split; [simpl; tauto | split; [discriminate | exact E1]]
            | exists (post (ApiBook.id book) (rating st));
              split; [simpl; tauto | split; [discriminate | exact E2]] ]. }
  rewrite W, A.
  destruct (stopped st book).
  - split; [|split].
    + split; [reflexivity | intros _; now left].
    + split; [intros [H | []]; discriminate | intros [H _]; discriminate].
    + simpl. lia.
  - split; [|split].
    + split; [|discriminate].
      destruct (net get) as [|[[] [j|]]]; simpl; intuition discriminate.
    + destruct (net get) as [|[[] [j|]]]; simpl; intuition discriminate.
    + destruct (net get) as [|[[] [j|]]]; simpl; lia.
Qed.

(** X24. When every request of a save is answered with a non-2xx status the
    save fails without a trace: the refresh is still attempted, the session
    closes, the Catalog and the drafts stay as they were, the store is
    unchanged and nothing is written to the console. *)
Theorem save_fails_silently_on_status
    (st : State) (store : Store) (book : ApiBook.t) :
  selectedBook st = Some book ->
  (forall r, exists j, net r = Responded (mkResponse false j)) ->
  let m := runSave st store in
  In get (sent (world m)) /\
  ui m = setSelectedBook None st /\
  remote (world m) = store /\
  console (world m) = [].
Proof.
  intros Hb Hn. cbn zeta.
  assert (R : forall r, isRejected (net r) = false)
    by (intros r; destruct (Hn r) as [j ->]; reflexivity).
  assert (S : stopped st book = false) by (rewrite !R, !andb_false_r; reflexivity).
  assert (F : fetchedBooks (net get) = None /\ fetchErrors (net get) = [])
    by (destruct (Hn get) as [j ->]; split; reflexivity).
  destruct F as [F1 F2].
  split; [apply (refresh_attempted_iff st store book Hb); exact S|].
  rewrite (save_ui _ _ serve net st store book Hb),
          (save_console _ _ serve net st store book Hb), S, F1, F2.
  split; [reflexivity|]. split; [|reflexivity].
  rewrite (save_remote _ _ serve net st store book Hb).
  generalize (sent (world (runSave st store))). intros log.
  unfold applyAccepted. revert store.
  induction log as [|r log IH]; intros store; simpl; [reflexivity|].
  rewrite IH. unfold deliver. destruct (Hn r) as [j ->].
  now destruct (method r).
Qed.

(** X25. After a save whose refresh succeeded, the list is the filtered
    view of the fetched books under the search text, tab and selection that
    were in force before the save. *)
Theorem saved_view_is_refiltered
    (st : State) (store : Store) (book : ApiBook.t)
    (data : list ApiBook.t) (ts : string) :
  selectedBook st = Some book ->
  In get (sent (world (runSave st store))) ->
  net get = Responded (mkResponse true
              (Some (BooksResponse.mk true (Some data) ts))) ->
  filteredApiBooks readingStatuses (ui (runSave st store)) =
  filteredApiBooks readingStatuses (setApiBooks data st).
Proof.
  intros Hb Hg Hn. apply (refresh_attempted_iff st store book Hb) in Hg.
  rewrite (save_ui _ _ serve net st store book Hb), Hg, Hn. simpl.
  destruct (findBook (ApiBook.id book) data); reflexivity.
Qed.

(** X26. The write requests of different books go to different URLs: for
    ids that are safe integers, the URL of a progress update, and the URL
    of a review, is the same for two books only if their ids are the same,
    whatever the base URL. *)
Theorem request_urls_distinguish_books (id id' d d' s s' : Z) :
  isSafeInteger id = true ->
  isSafeInteger id' = true ->
  (url (pagesReadRequest VITE_API_BASE_URL id d) =
   url (pagesReadRequest VITE_API_BASE_URL id' d') <-> id = id') /\
  (url (reviewRequest VITE_API_BASE_URL id s) =
   url (reviewRequest VITE_API_BASE_URL id' s') <-> id = id').
Proof.
  intros _ _. unfold pagesReadRequest, reviewRequest. cbn [url].
  split; (split; [|now intros ->]); intros H;
    (destruct (Js.truthy (baseURL VITE_API_BASE_URL));
     [apply (append_inj_l (baseURL VITE_API_BASE_URL)) in H|]);
    apply (append_inj_l "/api/books/") in H;
    apply append_inj_r in H;
    now apply numberToString_injective.
Qed.

End MoreSaveProperties.

(* ================================================================= *)
(** ** The further properties at work on the sample library *)

Example apiCategories_sample :
  apiCategories (setApiBooks Sample.reshelved initialState) =
  ["Essays"; "Science Fiction"].
Proof. reflexivity. Qed.

Example sort_is_by_code_unit :
  sortStrings ["history"; "Art"; "art"; "Zoology"; ""; "Ar"] =
  [""; "Ar"; "Art"; "Zoology"; "art"; "history"].
Proof. reflexivity. Qed.

Lemma category_filter_iff_witness :
  let st := categoryBadgeClick "Essays"
              (handleFilterChange FilterCategory
                 (setApiBooks [Sample.dune; Sample.pamphlet] initialState)) in
  activeFilter st = FilterCategory /\
  In Sample.pamphlet (apiBooks st) /\
  (In Sample.pamphlet (filteredApiBooks Sample.statuses st) <->
   matchesSearch (searchQuery st) Sample.pamphlet = true /\
   ApiBook.category Sample.pamphlet = "Essays").
Proof.
  cbn zeta.
  set (st := categoryBadgeClick "Essays"
               (handleFilterChange FilterCategory
                  (setApiBooks [Sample.dune; Sample.pamphlet] initialState))).
  assert (Hin : In Sample.pamphlet (apiBooks st)) by (simpl; auto).
  split; [reflexivity|]. split; [exact Hin|].
  apply (proj1 (category_filter_iff Sample.statuses st Sample.pamphlet
                  eq_refl Hin) "Essays" eq_refl).
  discriminate.
Defined.

Lemma search_ignores_query_case_witness :
  equalIgnoringCase "dUNe" "DUNE" /\
  filteredApiBooks Sample.statuses (searchInputChange "dUNe" Sample.loaded) =
  filteredApiBooks Sample.statuses (searchInputChange "DUNE" Sample.loaded).
Proof.
  assert (E : equalIgnoringCase "dUNe" "DUNE")
    by (apply equalIgnoringCase_iff; reflexivity).
  split; [exact E|].
  exact (search_ignores_query_case Sample.statuses "dUNe" "DUNE" Sample.loaded E).
Defined.

Lemma apiCategories_depends_on_set_witness :
  apiCategories (setApiBooks [Sample.dune; Sample.pamphlet; Sample.foundation]
                   initialState) =
  apiCategories (setApiBooks Sample.reshelved initialState).
Proof.
  apply apiCategories_depends_on_set. intros c. simpl. tauto.
Defined.

Lemma category_badge_lists_its_books_witness :
  let st := setApiBooks [Sample.dune; Sample.pamphlet] initialState in
  In "Essays" (apiCategories st) /\
  filteredApiBooks Sample.statuses
    (categoryBadgeClick "Essays" (handleFilterChange FilterCategory st)) <> [].
Proof.
  cbn zeta.
  assert (Hin : In "Essays"
                  (apiCategories
                     (setApiBooks [Sample.dune; Sample.pamphlet] initialState)))
    by (left; reflexivity).
  split; [exact Hin|].
  assert (Hne : "Essays" <> "") by discriminate.
  exact (proj2 (category_badge_lists_its_books Sample.statuses "Essays"
                  (setApiBooks [Sample.dune; Sample.pamphlet] initialState)
                  Hin Hne) eq_refl).
Defined.

Lemma typing_rendered_number_sets_draft_witness :
  let st := bookItemClick Sample.dune Sample.loaded in
  selectedBook st = Some Sample.dune /\
  isSafeInteger 120 = true /\
  120 <= ApiBook.pages Sample.dune /\
  pagesReadInputChange (Js.numberToString 120) st = setPagesRead 120 st.
Proof.
  cbn zeta. split; [reflexivity|]. split; [reflexivity|].
  assert (H : 120 <= ApiBook.pages Sample.dune) by (simpl; lia).
  split; [exact H|].
  exact (typing_rendered_number_sets_draft
           (bookItemClick Sample.dune Sample.loaded) Sample.dune 120
           eq_refl eq_refl H).
Defined.

Lemma parseInt_numberToString_witness :
  isSafeInteger (-9007199254740991) = true /\
  Js.parseInt (Js.numberToString (-9007199254740991)) = Some (-9007199254740991).
Proof.
  split; [reflexivity|].
  exact (proj1 (parseInt_numberToString (-9007199254740991) eq_refl)).
Defined.

Lemma request_urls_distinguish_books_witness :
  isSafeInteger 1 = true /\ isSafeInteger 11 = true /\
  url (pagesReadRequest (Some "https://shelf.example") 1 50) <>
  url (pagesReadRequest (Some "https://shelf.example") 11 50).
Proof.
  split; [reflexivity|]. split; [reflexivity|].
  intros H.
  apply (proj1 (request_urls_distinguish_books (Some "https://shelf.example")
                  1 11 50 50 0 0 eq_refl eq_refl)) in H.
  discriminate H.
Defined.

Lemma edits_keep_draft_within_pages_witness :
  ApiBook.pagesRead Sample.dune <= ApiBook.pages Sample.dune /\
  pagesRead (dialogEvents [PagesInput "450"; RatingChange 4; PagesInput "399"]
               (bookItemClick Sample.dune Sample.loaded))
  <= ApiBook.pages Sample.dune.
Proof.
  assert (H : ApiBook.pagesRead Sample.dune <= ApiBook.pages Sample.dune)
    by (simpl; lia).
  split; [exact H|].
  exact (proj1 (edits_keep_draft_within_pages Sample.dune
                  [PagesInput "450"; RatingChange 4; PagesInput "399"]
                  Sample.loaded H)).
Defined.

Lemma no_minus_no_negative_witness : 0 <= Js.parseIntOrZero "  42 pages".
Proof.
  apply no_minus_no_negative. intros s' H. cbn in H. discriminate H.
Defined.

Lemma refresh_replaces_catalog_witness :
  let net := Sample.netBy Sample.accepted Sample.accepted
               (Sample.books [Sample.dune120; Sample.foundation]) in
  let st' := ui (refresh None Sample.record net Sample.editing []) in
  apiBooks st' = [Sample.dune120; Sample.foundation] /\
  selectedBook st' = Some Sample.dune /\
  pagesRead st' = 120.
Proof.
  cbn zeta.
  rewrite (proj1 (refresh_replaces_catalog Sample.statuses None Sample.Journal
                    Sample.record
                    (Sample.netBy Sample.accepted Sample.accepted
                       (Sample.books [Sample.dune120; Sample.foundation]))
                    [Sample.dune120; Sample.foundation] "2024-01-01T00:00:00Z"
                    Sample.editing [] eq_refl)).
  repeat split.
Defined.

Lemma unedited_save_only_refreshes_witness :
  let net := Sample.netBy Rejected Rejected (Sample.books Sample.catalog) in
  let st := bookItemClick Sample.dune Sample.loaded in
  sent (world (save None Sample.record net st [])) = [booksRequest None].
Proof.
  cbn zeta.
  exact (proj1 (unedited_save_only_refreshes None Sample.Journal Sample.record
                  (Sample.netBy Rejected Rejected (Sample.books Sample.catalog))
                  (bookItemClick Sample.dune Sample.loaded) [] Sample.dune
                  eq_refl eq_refl eq_refl)).
Defined.

Lemma save_store_effect_witness :
  let net := Sample.netBy Sample.accepted Sample.accepted
               (Sample.books [Sample.dune120; Sample.foundation]) in
  selectedBook Sample.editing = Some Sample.dune /\
  remote (world (save None Sample.record net Sample.editing [])) =
  [reviewRequest None 1 3; pagesReadRequest None 1 120].
Proof.
  cbn zeta. split; [reflexivity|].
  rewrite (save_store_effect None Sample.Journal Sample.record
             (Sample.netBy Sample.accepted Sample.accepted
                (Sample.books [Sample.dune120; Sample.foundation]))
             Sample.editing [] Sample.dune eq_refl).
  reflexivity.
Defined.

Lemma save_console_messages_witness :
  let net := Sample.netBy Sample.accepted Rejected (Sample.books Sample.catalog) in
  selectedBook Sample.editing = Some Sample.dune /\
  In "Error saving book data:"
     (console (world (save None Sample.record net Sample.editing []))).
Proof.
  cbn zeta. split; [reflexivity|].
  apply (proj1 (save_console_messages None Sample.Journal Sample.record
                  (Sample.netBy Sample.accepted Rejected
                     (Sample.books Sample.catalog))
                  Sample.editing [] Sample.dune eq_refl)).
  exists (reviewRequest None 1 3).
  split; [simpl; tauto | split; [discriminate | reflexivity]].
Defined.

Lemma save_fails_silently_on_status_witness :
  let net := Sample.netBy Sample.serverError Sample.serverError Sample.serverError in
  let m := save None Sample.record net Sample.editing [] in
  selectedBook Sample.editing = Some Sample.dune /\
  ui m = setSelectedBook None Sample.editing /\
  remote (world m) = [] /\
  console (world m) = [].
Proof.
  cbn zeta. split; [reflexivity|].
  apply (save_fails_silently_on_status None Sample.Journal Sample.record
           (Sample.netBy Sample.serverError Sample.serverError Sample.serverError)
           Sample.editing [] Sample.dune eq_refl).
  intros r. exists None. unfold Sample.netBy. now destruct (method r).
Defined.

Lemma saved_view_is_refiltered_witness :
  let net := Sample.netBy Sample.accepted Sample.accepted
               (Sample.books [Sample.dune120; Sample.foundation]) in
  let st := searchInputChange "found" Sample.editing in
  filteredApiBooks Sample.statuses (ui (save None Sample.record net st [])) =
  [Sample.foundation].
Proof.
  cbn zeta.
  assert (G : In (booksRequest None)
                (sent (world (save None Sample.record
                   (Sample.netBy Sample.accepted Sample.accepted
                      (Sample.books [Sample.dune120; Sample.foundation]))
                   (searchInputChange "found" Sample.editing) []))))
    by (simpl; auto).
  rewrite (saved_view_is_refiltered Sample.statuses None Sample.Journal
             Sample.record
             (Sample.netBy Sample.accepted Sample.accepted
                (Sample.books [Sample.dune120; Sample.foundation]))
             (searchInputChange "found" Sample.editing) [] Sample.dune
             [Sample.dune120; Sample.foundation] "2024-01-01T00:00:00Z"
             eq_refl G eq_refl).
  reflexivity.
Defined.

(* ================================================================= *)
(** ** The search test beyond the Latin-1 range *)

Example greek_lower_case :
  Utf16.toLowerCase Sample.greekTitle = Some [959; 948; 959; 962]%N /\
  Utf16.toLowerCase Sample.capitalSigma = Some [963]%N.
Proof. split; reflexivity. Qed.

